(** * ROSCO_toolbox: the controller interface ([control_interface.py])

    A shallow embedding of [ControllerInterface]: the avrSWAP exchange
    array, the call into the compiled DISCON routine, and the two methods
    [call_discon] and [call_controller], followed by the properties of the
    buffer-exchange contract. *)

From Stdlib Require Import ZArith List String Ascii Floats.SpecFloat.
From stdpp Require Import gmap strings list.

Local Open Scope Z_scope.

(** ** Floating-point values

    Python floats and the [np.float64] items of [np.zeros] are binary64
    numbers; the items of an array converted with [astype(np.float32)] are
    binary32 numbers.  Both are carried by [spec_float]; the format decides
    how a value is rounded. *)

Module F64.
Definition prec : Z := 53.
Definition emax : Z := 1024.
Definition mul : spec_float -> spec_float -> spec_float := SFmul prec emax.
Definition div : spec_float -> spec_float -> spec_float := SFdiv prec emax.
(** [float(n)] for a Python int [n]. *)
Definition of_Z (n : Z) : spec_float := binary_normalize prec emax n 0 false.
End F64.

Module F32.
Definition prec : Z := 24.
Definition emax : Z := 128.
(** The cast of a binary64 value to binary32, round to nearest even,
    overflowing to an infinity. *)
Definition of_f64 (x : spec_float) : spec_float :=
  match x with
  | S754_finite s m e => binary_round prec emax s m e
  | _ => x
  end.
Definition of_Z (n : Z) : spec_float := of_f64 (F64.of_Z n).
End F32.

(** [np.pi], the binary64 number nearest to pi (0x400921FB54442D18). *)
Definition np_pi : spec_float := S754_finite false 7074237752028440 (-51).

(** The literal [0.1], the binary64 number nearest to one tenth. *)
Definition lit_0_1 : spec_float := F64.div (F64.of_Z 1) (F64.of_Z 10).

(** [deg2rad = np.deg2rad(1)]: numpy multiplies its argument by pi/180. *)
Definition deg2rad : spec_float :=
  F64.mul (F64.of_Z 1) (F64.div np_pi (F64.of_Z 180)).

(** [rpm2RadSec = 2.0*(np.pi)/60.0]. *)
Definition rpm2RadSec : spec_float :=
  F64.div (F64.mul (F64.of_Z 2) np_pi) (F64.of_Z 60).

(** ** numpy arrays of floats *)

Inductive dtype := float64 | float32.

Record ndarray := mk_ndarray { arr_dtype : dtype; arr_data : list spec_float }.

(** What an item assignment stores for a binary64 right-hand side. *)
Definition cast (d : dtype) (v : spec_float) : spec_float :=
  match d with
  | float64 => v
  | float32 => F32.of_f64 v
  end.

(** [np.zeros(n)]. *)
Definition np_zeros (n : nat) : ndarray :=
  mk_ndarray float64 (replicate n (S754_zero false)).

(** [a.astype(np.float32)]: a new array; the items of a float64 array are
    rounded, those of a float32 array are copied. *)
Definition astype_float32 (a : ndarray) : ndarray :=
  match arr_dtype a with
  | float64 => mk_ndarray float32 (F32.of_f64 <$> arr_data a)
  | float32 => mk_ndarray float32 (arr_data a)
  end.

(** ** Exceptions *)

Inductive exn :=
  | KeyError (key : string)
  | IndexError (index : nat)
  | AttributeError (name : string)
  | OSError (msg : string).

(** ** The foreign routine

    [DISCON(avrSWAP, aviFAIL, accINFILE, avcOUTNAME, avcMSG)] returns
    nothing and works in place: it reads its arguments and its own state
    and stores into the float array, the status flag and the two character
    buffers.  A call is described by the stores it makes; a store outside
    an array is outside the contract and leaves the array as it is. *)

Record Effect (Ext : Type) := mk_Effect {
  eff_ext : Ext;
  eff_avr : list (nat * spec_float);
  eff_fail : Z;
  eff_outname : list (nat * ascii);
  eff_msg : list (nat * ascii)
}.
Arguments mk_Effect {Ext}.
Arguments eff_ext {Ext}.
Arguments eff_avr {Ext}.
Arguments eff_fail {Ext}.
Arguments eff_outname {Ext}.
Arguments eff_msg {Ext}.

Definition DISCON_t (Ext : Type) : Type :=
  Ext -> list spec_float -> Z -> string -> list ascii -> list ascii -> Effect Ext.

(** A library loaded by [cdll.LoadLibrary]: looking up its attribute
    [DISCON] gives the entry point, if the library exports that symbol. *)
Record CDLL (Ext : Type) := mk_CDLL {
  symbol_DISCON : option (DISCON_t Ext)
}.
Arguments mk_CDLL {Ext}.
Arguments symbol_DISCON {Ext}.

(** A [str] is carried by a [string] whose characters are its code points
    (those below 256), a [bytes] object by a [string] whose characters are
    its bytes.  [s.encode('utf-8')]: one byte for a code point below 128,
    two bytes for the others. *)
Definition utf8_encode_char (c : ascii) : string :=
  let n := nat_of_ascii c in
  if (n <? 128)%nat then String c EmptyString
  else
    String (ascii_of_nat (192 + n / 64))
      (String (ascii_of_nat (128 + n mod 64)) EmptyString).

Fixpoint utf8_encode (s : string) : string :=
  match s with
  | EmptyString => EmptyString
  | String c s' => String.append (utf8_encode_char c) (utf8_encode s')
  end.

Definition stores {A : Type} (ws : list (nat * A)) (l : list A) : list A :=
  foldl (fun acc w => <[fst w := snd w]> acc) l ws.

(** The slots a call stores into. *)
Definition written {A : Type} (ws : list (nat * A)) : list nat := map fst ws.

(** [create_string_buffer(n)] and the [value] of a buffer (the bytes before
    the first NUL). *)
Definition create_string_buffer (n : nat) : list ascii := replicate n zero.

Fixpoint buffer_value (b : list ascii) : string :=
  match b with
  | [] => EmptyString
  | c :: b' => if Ascii.eqb c zero then EmptyString else String c (buffer_value b')
  end.

(** ** The interface object and its environment *)

(** The attributes of a [ControllerInterface].  [nac_yawrate] is created by
    the first [call_controller] only; [discon] is the handle of the loaded
    library, here its [DISCON] entry point. *)
Record Adapter (Ext : Type) := mk_Adapter {
  lib_name : string;
  param_name : string;
  DT : spec_float;
  num_blade : Z;
  char_buffer : Z;
  avr_size : nat;
  pitch : spec_float;
  torque : spec_float;
  nac_yawrate : option spec_float;
  discon : DISCON_t Ext;
  avrSWAP : ndarray;
  aviFAIL : Z;
  accINFILE : string;
  avcOUTNAME : list ascii;
  avcMSG : list ascii
}.
Arguments mk_Adapter {Ext}.
Arguments lib_name {Ext}.
Arguments param_name {Ext}.
Arguments DT {Ext}.
Arguments num_blade {Ext}.
Arguments char_buffer {Ext}.
Arguments avr_size {Ext}.
Arguments pitch {Ext}.
Arguments torque {Ext}.
Arguments nac_yawrate {Ext}.
Arguments discon {Ext}.
Arguments avrSWAP {Ext}.
Arguments aviFAIL {Ext}.
Arguments accINFILE {Ext}.
Arguments avcOUTNAME {Ext}.
Arguments avcMSG {Ext}.

(** The object together with what lies outside it: the state the loaded
    library keeps between calls, and the history of the arrays handed to
    [DISCON], oldest first. *)
Record World (Ext : Type) := mk_World {
  self : Adapter Ext;
  ext : Ext;
  calls : list (list spec_float)
}.
Arguments mk_World {Ext}.
Arguments self {Ext}.
Arguments ext {Ext}.
Arguments calls {Ext}.

Section Model.
Context {Ext : Type}.

Definition set_avrSWAP (a : ndarray) (s : Adapter Ext) : Adapter Ext :=
  mk_Adapter (lib_name s) (param_name s) (DT s) (num_blade s) (char_buffer s)
    (avr_size s) (pitch s) (torque s) (nac_yawrate s) (discon s)
    a (aviFAIL s) (accINFILE s) (avcOUTNAME s) (avcMSG s).

Definition set_pitch (v : spec_float) (s : Adapter Ext) : Adapter Ext :=
  mk_Adapter (lib_name s) (param_name s) (DT s) (num_blade s) (char_buffer s)
    (avr_size s) v (torque s) (nac_yawrate s) (discon s)
    (avrSWAP s) (aviFAIL s) (accINFILE s) (avcOUTNAME s) (avcMSG s).

Definition set_torque (v : spec_float) (s : Adapter Ext) : Adapter Ext :=
  mk_Adapter (lib_name s) (param_name s) (DT s) (num_blade s) (char_buffer s)
    (avr_size s) (pitch s) v (nac_yawrate s) (discon s)
    (avrSWAP s) (aviFAIL s) (accINFILE s) (avcOUTNAME s) (avcMSG s).

Definition set_nac_yawrate (v : spec_float) (s : Adapter Ext) : Adapter Ext :=
  mk_Adapter (lib_name s) (param_name s) (DT s) (num_blade s) (char_buffer s)
    (avr_size s) (pitch s) (torque s) (Some v) (discon s)
    (avrSWAP s) (aviFAIL s) (accINFILE s) (avcOUTNAME s) (avcMSG s).

(** What a return from [DISCON] leaves in the object: [data] becomes the
    array, the flag and the two buffers hold what the routine stored. *)
Definition set_foreign (data : ndarray) (fail : Z) (outname msg : list ascii)
    (s : Adapter Ext) : Adapter Ext :=
  mk_Adapter (lib_name s) (param_name s) (DT s) (num_blade s) (char_buffer s)
    (avr_size s) (pitch s) (torque s) (nac_yawrate s) (discon s)
    data fail (accINFILE s) outname msg.

(** *** Methods as state transformers that may raise *)

Definition M (A : Type) : Type := World Ext -> World Ext * (exn + A).

Definition ret {A} (a : A) : M A := fun w => (w, inr a).

Definition raise {A} (e : exn) : M A := fun w => (w, inl e).

Definition bind {A B} (m : M A) (k : A -> M B) : M B :=
  fun w =>
    match m w with
    | (w', inr a) => k a w'
    | (w', inl e) => (w', inl e)
    end.

Definition get_self : M (Adapter Ext) := fun w => (w, inr (self w)).

Definition modify_self (f : Adapter Ext -> Adapter Ext) : M unit :=
  fun w => (mk_World (f (self w)) (ext w) (calls w), inr tt).

End Model.

Declare Scope method_scope.
Delimit Scope method_scope with method.
Notation "x <- c1 ;; c2" := (bind c1 (fun x => c2))
  (at level 100, c1 at next level, c2 at level 200, right associativity) : method_scope.
Notation "c1 ;; c2" := (bind c1 (fun _ => c2))
  (at level 100, c2 at level 200, right associativity) : method_scope.
Open Scope method_scope.

Section Methods.
Context {Ext : Type}.

(** [d[key]] on a dict. *)
Definition dict_getitem (d : gmap string spec_float) (key : string)
    : M (Ext:=Ext) spec_float :=
  match d !! key with
  | Some v => ret v
  | None => raise (KeyError key)
  end.

(** [self.avrSWAP[i] = v]: stores in place, converting to the array's
    dtype; an index past the end raises. *)
Definition avr_setitem (i : nat) (v : spec_float) : M (Ext:=Ext) unit :=
  s <- get_self ;;
  let a := avrSWAP s in
  match arr_data a !! i with
  | Some _ =>
      modify_self
        (set_avrSWAP (mk_ndarray (arr_dtype a) (<[i := cast (arr_dtype a) v]> (arr_data a))))
  | None => raise (IndexError i)
  end.

(** [self.avrSWAP[i]]. *)
Definition avr_getitem (i : nat) : M (Ext:=Ext) spec_float :=
  s <- get_self ;;
  match arr_data (avrSWAP s) !! i with
  | Some v => ret v
  | None => raise (IndexError i)
  end.

(** What [DISCON] does when it is run from world [w] on the converted
    array [data]. *)
Definition discon_effect (w : World Ext) (data : ndarray) : Effect Ext :=
  let s := self w in
  discon s (ext w) (arr_data data) (aviFAIL s) (accINFILE s)
    (avcOUTNAME s) (avcMSG s).

(** [call_discon]: convert the array, run [DISCON] on the copy, keep the
    copy as the array. *)
Definition call_discon : M (Ext:=Ext) unit :=
  fun w =>
    let s := self w in
    let data := astype_float32 (avrSWAP s) in
    let eff := discon_effect w data in
    let data' := mk_ndarray (arr_dtype data) (stores (eff_avr eff) (arr_data data)) in
    (mk_World
       (set_foreign data' (eff_fail eff)
          (stores (eff_outname eff) (avcOUTNAME s))
          (stores (eff_msg eff) (avcMSG s)) s)
       (eff_ext eff)
       (calls w ++ [arr_data data]),
     inr tt).

(** [call_controller], first part: "Add states to avr".  The turbine
    state is a dict from field names to floats. *)
Definition add_states (turbine_state : gmap string spec_float) : M (Ext:=Ext) unit :=
  t <- dict_getitem turbine_state "t" ;; avr_setitem 1 t ;;
  dt <- dict_getitem turbine_state "dt" ;; avr_setitem 2 dt ;;
  p <- dict_getitem turbine_state "bld_pitch" ;; avr_setitem 3 p ;;
  p <- dict_getitem turbine_state "bld_pitch" ;; avr_setitem 32 p ;;
  p <- dict_getitem turbine_state "bld_pitch" ;; avr_setitem 33 p ;;
  gs <- dict_getitem turbine_state "gen_speed" ;;
  gt <- dict_getitem turbine_state "gen_torque" ;;
  ge <- dict_getitem turbine_state "gen_eff" ;;
  avr_setitem 14 (F64.mul (F64.mul gs gt) ge) ;;
  gt <- dict_getitem turbine_state "gen_torque" ;; avr_setitem 22 gt ;;
  gs <- dict_getitem turbine_state "gen_speed" ;; avr_setitem 19 gs ;;
  rs <- dict_getitem turbine_state "rot_speed" ;; avr_setitem 20 rs ;;
  ws <- dict_getitem turbine_state "ws" ;; avr_setitem 26 ws ;;
  y <- dict_getitem turbine_state "Yaw_fromNorth" ;; avr_setitem 36 y ;;
  ye <- dict_getitem turbine_state "Y_MeasErr" ;; avr_setitem 23 ye.

(** [self.nac_yawrate], an attribute that may not exist yet. *)
Definition getattr_nac_yawrate : M (Ext:=Ext) spec_float :=
  s <- get_self ;;
  match nac_yawrate s with
  | Some v => ret v
  | None => raise (AttributeError "nac_yawrate")
  end.

(** [call_controller], last part: "return controller states". *)
Definition return_states : M (Ext:=Ext) (spec_float * spec_float * spec_float) :=
  p <- avr_getitem 41 ;; modify_self (set_pitch p) ;;
  t <- avr_getitem 46 ;; modify_self (set_torque t) ;;
  y <- avr_getitem 47 ;; modify_self (set_nac_yawrate y) ;;
  s <- get_self ;;
  y' <- getattr_nac_yawrate ;;
  ret (torque s, pitch s, y').

Definition call_controller (turbine_state : gmap string spec_float)
    : M (Ext:=Ext) (spec_float * spec_float * spec_float) :=
  add_states turbine_state ;;
  call_discon ;;
  return_states.

(** *** Construction *)

(** [fp.read_DISCON(param_filename)], the parameter-file reader, and
    [cdll.LoadLibrary(lib_name)]: either may raise. *)
Variable read_DISCON : string -> exn + gmap string spec_float.
Variable LoadLibrary : string -> exn + CDLL Ext.

(** The object as the assignments of [__init__] other than those into
    the array leave it; [lib] is the entry point that [self.discon.DISCON]
    gives. *)
Definition new_self (lib_name param_filename : string) (lib : DISCON_t Ext)
    : Adapter Ext :=
  let avr_size := 500%nat in
  mk_Adapter lib_name param_filename lit_0_1 3 500 avr_size
    (F64.of_Z 0) (F64.of_Z 0) None lib (np_zeros avr_size)
    0 (utf8_encode param_filename)
    (create_string_buffer 1000) (create_string_buffer 1000).

(** "Define some avrSWAP parameters", "Code this as first call" and "Put
    some values in". *)
Definition init_avrSWAP (discon_params : gmap string spec_float)
    (wind_speed_init rotor_rpm_init yaw_init yaw_error_init : spec_float)
    : M (Ext:=Ext) unit :=
  s <- get_self ;;
  avr_setitem 2 (DT s) ;;
  avr_setitem 60 (F64.of_Z (num_blade s)) ;;
  g <- dict_getitem discon_params "WE_GearboxRatio" ;;
  avr_setitem 19 (F64.mul (F64.mul rotor_rpm_init rpm2RadSec) g) ;;
  avr_setitem 20 (F64.mul rotor_rpm_init rpm2RadSec) ;;
  avr_setitem 23 yaw_error_init ;;
  avr_setitem 26 wind_speed_init ;;
  avr_setitem 36 (F64.mul yaw_init deg2rad) ;;
  avr_setitem 0 (F64.of_Z 0) ;;
  avr_setitem 48 (F64.of_Z (char_buffer s)) ;;
  avr_setitem 49 (F64.of_Z (Z.of_nat (String.length (param_name s)))) ;;
  avr_setitem 50 (F64.of_Z (char_buffer s)) ;;
  avr_setitem 51 (F64.of_Z (char_buffer s)).

(** The world in which the array has been filled and [DISCON] has not
    yet run; [ext0] is the state the library starts in.  The symbol
    [DISCON] is looked up after the array has been filled
    ([self.discon.DISCON.argtypes = ...]): for a library without it, a
    missing gearbox ratio is what is raised, and AttributeError
    otherwise. *)
Definition init_setup (lib_name param_filename : string)
    (wind_speed_init rotor_rpm_init yaw_init yaw_error_init : spec_float)
    (ext0 : Ext) : exn + World Ext :=
  match read_DISCON param_filename with
  | inl e => inl e
  | inr discon_params =>
      match LoadLibrary lib_name with
      | inl e => inl e
      | inr handle =>
          match symbol_DISCON handle with
          | Some lib =>
              match init_avrSWAP discon_params wind_speed_init rotor_rpm_init
                      yaw_init yaw_error_init
                      (mk_World (new_self lib_name param_filename lib) ext0 [])
              with
              | (w, inr _) => inr w
              | (_, inl e) => inl e
              end
          | None =>
              match discon_params !! "WE_GearboxRatio" with
              | None => inl (KeyError "WE_GearboxRatio")
              | Some _ => inl (AttributeError "DISCON")
              end
          end
      end
  end.

(** "Run DISCON" and "Code as not first run". *)
Definition init_run : M (Ext:=Ext) unit :=
  call_discon ;;
  avr_setitem 0 (F64.of_Z 1).

Definition __init__ (lib_name param_filename : string)
    (wind_speed_init rotor_rpm_init yaw_init yaw_error_init : spec_float)
    (ext0 : Ext) : exn + World Ext :=
  match init_setup lib_name param_filename wind_speed_init rotor_rpm_init
          yaw_init yaw_error_init ext0 with
  | inl e => inl e
  | inr w0 =>
      match init_run w0 with
      | (w, inr _) => inr w
      | (_, inl e) => inl e
      end
  end.

(** The worlds an interface object can be in: after its construction,
    and after any call of one of its two methods, whether the call
    returned or raised. *)
Inductive reachable : World Ext -> Prop :=
  | reach_init l p ws rr y ye ext0 w :
      __init__ l p ws rr y ye ext0 = inr w -> reachable w
  | reach_call_discon w w' r :
      reachable w -> call_discon w = (w', r) -> reachable w'
  | reach_call_controller w ts w' r :
      reachable w -> call_controller ts w = (w', r) -> reachable w'.

End Methods.

(** ** Vocabulary of the properties *)

Definition f_zero : spec_float := S754_zero false.
Definition f_one : spec_float := F32.of_Z 1.

(** The slots [call_controller] assigns, and those [__init__] assigns. *)
Definition input_slots : list nat :=
  [1; 2; 3; 32; 33; 14; 22; 19; 20; 26; 36; 23]%nat.
Definition init_slots : list nat :=
  [2; 60; 19; 20; 23; 26; 36; 0; 48; 49; 50; 51]%nat.

(** The ten fields of a turbine state. *)
Record TurbineState := mk_TurbineState {
  ts_t : spec_float;
  ts_dt : spec_float;
  ts_bld_pitch : spec_float;
  ts_gen_speed : spec_float;
  ts_gen_torque : spec_float;
  ts_gen_eff : spec_float;
  ts_rot_speed : spec_float;
  ts_ws : spec_float;
  ts_Yaw_fromNorth : spec_float;
  ts_Y_MeasErr : spec_float
}.

(** The dict [d] has all ten fields, with the values of [v]. *)
Definition holds (d : gmap string spec_float) (v : TurbineState) : Prop :=
  d !! "t" = Some (ts_t v) /\
  d !! "dt" = Some (ts_dt v) /\
  d !! "bld_pitch" = Some (ts_bld_pitch v) /\
  d !! "gen_speed" = Some (ts_gen_speed v) /\
  d !! "gen_torque" = Some (ts_gen_torque v) /\
  d !! "gen_eff" = Some (ts_gen_eff v) /\
  d !! "rot_speed" = Some (ts_rot_speed v) /\
  d !! "ws" = Some (ts_ws v) /\
  d !! "Yaw_fromNorth" = Some (ts_Yaw_fromNorth v) /\
  d !! "Y_MeasErr" = Some (ts_Y_MeasErr v).

Definition full_fields : TurbineState :=
  mk_TurbineState (F64.of_Z 5) lit_0_1 lit_0_1 (F64.of_Z 100) (F64.of_Z 2000)
    (F64.of_Z 1) (F64.of_Z 1) (F64.of_Z 11) (F64.of_Z 0) (F64.of_Z 0).

Section Vocabulary.
Context {Ext : Type}.

Definition buffer (w : World Ext) : list spec_float := arr_data (avrSWAP (self w)).

Definition slot (w : World Ext) (i : nat) : option spec_float := buffer w !! i.

(** The world after [self.avrSWAP[i] = v] with [i] in range. *)
Definition store_item (i : nat) (v : spec_float) (w : World Ext) : World Ext :=
  let a := avrSWAP (self w) in
  mk_World
    (set_avrSWAP (mk_ndarray (arr_dtype a) (<[i := cast (arr_dtype a) v]> (arr_data a)))
       (self w))
    (ext w) (calls w).

(** [w1] differs from [w] at most in the items of the array at the
    slots [S]. *)
Definition frame (S : list nat) (w w1 : World Ext) : Prop :=
  ext w1 = ext w /\
  calls w1 = calls w /\
  exists data1,
    self w1 = set_avrSWAP (mk_ndarray (arr_dtype (avrSWAP (self w))) data1) (self w) /\
    length data1 = length (buffer w) /\
    forall i, i ∉ S -> data1 !! i = buffer w !! i.

Definition preserves {A} (R : World Ext -> World Ext -> Prop) (m : M A) : Prop :=
  forall w w1 r, m w = (w1, r) -> R w w1.

(** The world after the twelve assignments of [call_controller]. *)
Definition written_states (v : TurbineState) (w : World Ext) : World Ext :=
  store_item 23 (ts_Y_MeasErr v)
    (store_item 36 (ts_Yaw_fromNorth v)
      (store_item 26 (ts_ws v)
        (store_item 20 (ts_rot_speed v)
          (store_item 19 (ts_gen_speed v)
            (store_item 22 (ts_gen_torque v)
              (store_item 14
                 (F64.mul (F64.mul (ts_gen_speed v) (ts_gen_torque v)) (ts_gen_eff v))
                (store_item 33 (ts_bld_pitch v)
                  (store_item 32 (ts_bld_pitch v)
                    (store_item 3 (ts_bld_pitch v)
                      (store_item 2 (ts_dt v)
                        (store_item 1 (ts_t v) w))))))))))).

(** The items [call_discon] hands to [DISCON] when it is called in [w],
    and what [DISCON] then does. *)
Definition handed (w : World Ext) : list spec_float :=
  arr_data (astype_float32 (avrSWAP (self w))).

Definition foreign_effect (w : World Ext) : Effect Ext :=
  discon_effect w (astype_float32 (avrSWAP (self w))).

(** The world in which [__init__] runs [DISCON]: the new object after the
    assignments into its array, [g] being the gearbox ratio read from the
    parameter file. *)
Definition init_written (lib_name param_filename : string) (lib : DISCON_t Ext)
    (wind_speed_init rotor_rpm_init yaw_init yaw_error_init g : spec_float)
    (ext0 : Ext) : World Ext :=
  store_item 51 (F64.of_Z 500)
    (store_item 50 (F64.of_Z 500)
      (store_item 49 (F64.of_Z (Z.of_nat (String.length param_filename)))
        (store_item 48 (F64.of_Z 500)
          (store_item 0 (F64.of_Z 0)
            (store_item 36 (F64.mul yaw_init deg2rad)
              (store_item 26 wind_speed_init
                (store_item 23 yaw_error_init
                  (store_item 20 (F64.mul rotor_rpm_init rpm2RadSec)
                    (store_item 19 (F64.mul (F64.mul rotor_rpm_init rpm2RadSec) g)
                      (store_item 60 (F64.of_Z 3)
                        (store_item 2 lit_0_1
                          (mk_World (new_self lib_name param_filename lib) ext0
                             [])))))))))))).

(** The routine never stores into slot [i]. *)
Definition never_stores (lib : DISCON_t Ext) (i : nat) : Prop :=
  forall e d f n o m, i ∉ written (eff_avr (lib e d f n o m)).

(** The routine stores [v] into slot [i] on every call. *)
Definition always_sets (lib : DISCON_t Ext) (i : nat) (v : spec_float) : Prop :=
  forall e d f n o m l, (i < length l)%nat ->
    stores (eff_avr (lib e d f n o m)) l !! i = Some v.

(** Slot 0 as [DISCON] found it at each of its calls, oldest first, and
    then as it is now. *)
Definition call_markers (w : World Ext) : list (option spec_float) :=
  (fun d => d !! 0%nat) <$> calls w.

Definition marker_history (w : World Ext) : list (option spec_float) :=
  call_markers w ++ [slot w 0].

(** The object is as [call_discon] leaves it: a float32 array of 500
    items. *)
Definition wf (w : World Ext) : Prop :=
  arr_dtype (avrSWAP (self w)) = float32 /\ length (buffer w) = 500%nat.

End Vocabulary.

(** ** Stand-ins for the outside world, used in the examples

    Compiled controllers without state of their own, a parameter file that
    gives a gearbox ratio, and turbine states. *)

Definition f32_0_1 : spec_float := F32.of_f64 lit_0_1.
Definition f32_1000 : spec_float := F32.of_Z 1000.
Definition f32_0_01 : spec_float := F32.of_f64 (F64.div (F64.of_Z 1) (F64.of_Z 100)).

(** A controller that stores nothing. *)
Definition stub_idle : DISCON_t unit :=
  fun e _ fail _ _ _ => mk_Effect e [] fail [] [].

(** A controller that commands the same pitch, torque and yaw rate on
    every call. *)
Definition stub_const : DISCON_t unit :=
  fun e _ fail _ _ _ =>
    mk_Effect e [(41%nat, f32_0_1); (46%nat, f32_1000); (47%nat, f32_0_01)] fail [] [].

(** A controller that reports a failure: flag -1 and the message ERROR. *)
Definition stub_error : DISCON_t unit :=
  fun e _ _ _ _ _ =>
    mk_Effect e [] (-1) []
      (zip (seq 0 6) (list_ascii_of_string "ERROR" ++ [zero])).

(** A controller that stores into slot 19, but not at its first call (the
    one that finds the marker 0). *)
Definition stub_late : DISCON_t unit :=
  fun e d fail _ _ _ =>
    mk_Effect e
      (match d !! 0%nat with
       | Some m => if SFeqb m (S754_zero false) then [] else [(19%nat, f32_1000)]
       | None => []
       end)
      fail [] [].

Definition params_ok : string -> exn + gmap string spec_float :=
  fun _ => inr {[ "WE_GearboxRatio" := F64.of_Z 97 ]}.

Definition load_ok (lib : DISCON_t unit) : string -> exn + CDLL unit :=
  fun _ => inr (mk_CDLL (Some lib)).

(** [ControllerInterface(lib)] with the default arguments. *)
Definition construct (lib : DISCON_t unit) : exn + World unit :=
  __init__ params_ok (load_ok lib) "libdiscon.so" "DISCON.IN"
    (F64.of_Z 10) (F64.of_Z 4) (F64.of_Z 0) (F64.of_Z 0) tt.

(** The object that [construct] makes (a bare object if it raised). *)
Definition constructed (lib : DISCON_t unit) : World unit :=
  match construct lib with
  | inr w => w
  | inl _ => mk_World (new_self "libdiscon.so" "DISCON.IN" lib) tt []
  end.

Definition state_full : gmap string spec_float :=
  list_to_map
    [("t", F64.of_Z 5); ("dt", lit_0_1); ("bld_pitch", lit_0_1);
     ("gen_speed", F64.of_Z 100); ("gen_torque", F64.of_Z 2000);
     ("gen_eff", F64.of_Z 1); ("rot_speed", F64.of_Z 1);
     ("ws", F64.of_Z 11); ("Yaw_fromNorth", F64.of_Z 0);
     ("Y_MeasErr", F64.of_Z 0)].

(** A turbine state that lacks every field but the time. *)
Definition state_t_only : gmap string spec_float := {[ "t" := F64.of_Z 5 ]}.

(** The object after one [call_controller(state_full)]. *)
Definition advanced (lib : DISCON_t unit) : World unit :=
  fst (call_controller state_full (constructed lib)).

(** The world in which [construct] first runs [DISCON] (a bare object if
    it raised before). *)
Definition set_up (lib : DISCON_t unit) : World unit :=
  match
    init_setup params_ok (load_ok lib) "libdiscon.so" "DISCON.IN"
      (F64.of_Z 10) (F64.of_Z 4) (F64.of_Z 0) (F64.of_Z 0) tt
  with
  | inr w => w
  | inl _ => mk_World (new_self "libdiscon.so" "DISCON.IN" lib) tt []
  end.

(** ** The rest of the class, and more vocabulary *)

Section Display.
Context {Ext : Type}.

(** [show_control_values]: what its two [print] calls show, each as the
    label and the value printed after it; the object is only read. *)
Definition show_control_values : M (Ext:=Ext) (list (string * spec_float)) :=
  s <- get_self ;;
  let line1 := ("Pitch"%string, pitch s) in
  s' <- get_self ;;
  let line2 := ("Torque"%string, torque s') in
  ret [line1; line2].

(** The attributes that no method assigns after [__init__]. *)
Definition same_config (w w' : World Ext) : Prop :=
  lib_name (self w') = lib_name (self w) /\
  param_name (self w') = param_name (self w) /\
  DT (self w') = DT (self w) /\
  num_blade (self w') = num_blade (self w) /\
  char_buffer (self w') = char_buffer (self w) /\
  avr_size (self w') = avr_size (self w) /\
  accINFILE (self w') = accINFILE (self w) /\
  discon (self w') = discon (self w).

(** The last outputs kept by the object. *)
Definition same_outputs (w w' : World Ext) : Prop :=
  pitch (self w') = pitch (self w) /\
  torque (self w') = torque (self w) /\
  nac_yawrate (self w') = nac_yawrate (self w).

End Display.

(** The fields of a turbine state in the order in which [call_controller]
    first reads them, and the first of them that a dict lacks. *)
Definition field_order : list string :=
  ["t"; "dt"; "bld_pitch"; "gen_speed"; "gen_torque"; "gen_eff"; "rot_speed";
   "ws"; "Yaw_fromNorth"; "Y_MeasErr"]%string.

Definition is_missing (d : gmap string spec_float) (key : string) : bool :=
  match d !! key with
  | Some _ => false
  | None => true
  end.

Definition first_missing (d : gmap string spec_float) : option string :=
  List.find (is_missing d) field_order.






(** The right-hand side of the assignment to an input slot. *)
Definition input_value (v : TurbineState) (i : nat) : spec_float :=
  match i with
  | 1 => ts_t v
  | 2 => ts_dt v
  | 3 | 32 | 33 => ts_bld_pitch v
  | 14 => F64.mul (F64.mul (ts_gen_speed v) (ts_gen_torque v)) (ts_gen_eff v)
  | 22 => ts_gen_torque v
  | 19 => ts_gen_speed v
  | 20 => ts_rot_speed v
  | 26 => ts_ws v
  | 36 => ts_Yaw_fromNorth v
  | _ => ts_Y_MeasErr v
  end%nat.





(** A parameter file name with one code point above 127 (U+00D6), and
    the object constructed with it. *)
Definition name_umlaut : string :=
  String.append "DISC" (String (ascii_of_nat 214) "N.IN").

Definition constructed_umlaut : World unit :=
  match
    __init__ params_ok (load_ok stub_idle) "libdiscon.so" name_umlaut
      (F64.of_Z 10) (F64.of_Z 4) (F64.of_Z 0) (F64.of_Z 0) tt
  with
  | inr w => w
  | inl _ => mk_World (new_self "libdiscon.so" name_umlaut stub_idle) tt []
  end.

(** A turbine state that lacks the generator efficiency only. *)
Definition state_no_gen_eff : gmap string spec_float := delete "gen_eff" state_full.

(** * Properties *)

Section Properties.
Context {Ext : Type}.
Implicit Types (w : World Ext) (ts : gmap string spec_float) (S : list nat).

(** ** Stores into an array *)

Lemma length_stores {A} (ws : list (nat * A)) (l : list A) :
  length (stores ws l) = length l.
Proof.
  unfold stores. revert l.
  induction ws as [|[i v] ws IH]; intros l; simpl; [done|].
  rewrite IH. apply length_insert.
Qed.

Lemma lookup_stores_notin {A} (ws : list (nat * A)) (l : list A) (i : nat) :
  i ∉ written ws -> stores ws l !! i = l !! i.
Proof.
  unfold stores, written. revert l.
  induction ws as [|[j v] ws IH]; intros l Hi; simpl in *; [done|].
  apply not_elem_of_cons in Hi as [Hne Hi].
  rewrite IH by done. apply list_lookup_insert_ne. by intros ->.
Qed.

(** ** The monad *)

Lemma bind_inv {A B} (m : M A) (k : A -> M B) w w2 (r : exn + B) :
  bind m k w = (w2, r) ->
  (exists e, m w = (w2, inl e) /\ r = inl e) \/
  (exists w1 a, m w = (w1, inr a) /\ k a w1 = (w2, r)).
Proof.
  unfold bind. destruct (m w) as [w1 [e|a]]; intros H.
  - left. exists e. by inversion H.
  - right. by exists w1, a.
Qed.

Lemma bind_ok {A B} (m : M A) (k : A -> M B) w w1 a :
  m w = (w1, inr a) -> bind m k w = k a w1.
Proof. unfold bind. by intros ->. Qed.

Lemma preserves_bind {A B} (R : World Ext -> World Ext -> Prop)
    (m : M A) (k : A -> M B) :
  (forall w1 w2 w3, R w1 w2 -> R w2 w3 -> R w1 w3) ->
  preserves R m -> (forall a, preserves R (k a)) -> preserves R (bind m k).
Proof.
  intros Htrans Hm Hk w w2 r H.
  apply bind_inv in H as [(e & H & _)|(w1 & a & H1 & H2)].
  - by eapply Hm.
  - eapply Htrans; [by eapply Hm | by eapply Hk].
Qed.

(** ** Worlds that differ in some slots only *)

Lemma self_eta w :
  self w = set_avrSWAP (mk_ndarray (arr_dtype (avrSWAP (self w))) (buffer w)) (self w).
Proof.
  unfold buffer. destruct w as [s e c]; simpl.
  destruct s as [? ? ? ? ? ? ? ? ? ? a ? ? ? ?]; simpl. by destruct a.
Qed.

Lemma frame_refl S w : frame S w w.
Proof.
  repeat split. exists (buffer w). split; [apply self_eta | done].
Qed.

Lemma frame_trans S w1 w2 w3 : frame S w1 w2 -> frame S w2 w3 -> frame S w1 w3.
Proof.
  intros (He1 & Hc1 & d1 & Hs1 & Hl1 & Hf1) (He2 & Hc2 & d2 & Hs2 & Hl2 & Hf2).
  unfold frame, buffer in *. rewrite Hs1 in Hs2, Hl2, Hf2. simpl in *.
  repeat split; [congruence | congruence |].
  exists d2. repeat split; [done | congruence |].
  intros i Hi. rewrite Hf2, Hf1; done.
Qed.

Lemma frame_store_item S i v w : i ∈ S -> frame S w (store_item i v w).
Proof.
  intros Hi. repeat split. eexists. split; [reflexivity|]. split.
  - apply length_insert.
  - intros j Hj. apply list_lookup_insert_ne. intros ->. done.
Qed.

Lemma frame_buffer S w w1 i : frame S w w1 -> i ∉ S -> slot w1 i = slot w i.
Proof.
  intros (_ & _ & d1 & Hs & _ & Hf) Hi. unfold slot, buffer. rewrite Hs. simpl.
  by apply Hf.
Qed.

Lemma frame_length S w w1 : frame S w w1 -> length (buffer w1) = length (buffer w).
Proof. intros (_ & _ & d1 & Hs & Hl & _). unfold buffer at 1. by rewrite Hs. Qed.

Lemma frame_dtype S w w1 :
  frame S w w1 -> arr_dtype (avrSWAP (self w1)) = arr_dtype (avrSWAP (self w)).
Proof. intros (_ & _ & d1 & Hs & _ & _). by rewrite Hs. Qed.

Lemma frame_discon S w w1 : frame S w w1 -> discon (self w1) = discon (self w).
Proof. intros (_ & _ & d1 & Hs & _ & _). by rewrite Hs. Qed.

(** ** Item assignment and lookup *)

Lemma avr_setitem_spec i v w :
  avr_setitem i v w =
    match buffer w !! i with
    | Some _ => (store_item i v w, inr tt)
    | None => (w, inl (IndexError i))
    end.
Proof.
  unfold avr_setitem, bind, get_self, buffer. by destruct (_ !! i).
Qed.

Lemma avr_setitem_ok i v w :
  (i < length (buffer w))%nat -> avr_setitem i v w = (store_item i v w, inr tt).
Proof.
  intros Hi. rewrite avr_setitem_spec.
  destruct (lookup_lt_is_Some_2 _ _ Hi) as [x ->]. done.
Qed.

Lemma avr_getitem_spec i w :
  avr_getitem i w =
    match slot w i with
    | Some v => (w, inr v)
    | None => (w, inl (IndexError i))
    end.
Proof.
  unfold avr_getitem, bind, get_self, slot, buffer. by destruct (_ !! i).
Qed.

Lemma preserves_setitem S i v : i ∈ S -> preserves (Ext:=Ext) (frame S) (avr_setitem i v).
Proof.
  intros Hi w w1 r. rewrite avr_setitem_spec.
  destruct (buffer w !! i); intros [= <- <-];
    [by apply frame_store_item | apply frame_refl].
Qed.

Lemma preserves_dict_getitem S ts k :
  preserves (Ext:=Ext) (frame S) (dict_getitem ts k).
Proof.
  intros w w1 r. unfold dict_getitem.
  destruct (ts !! k); intros [= <- <-]; apply frame_refl.
Qed.

Lemma buffer_store_item i v w :
  buffer (store_item i v w) =
    <[i := cast (arr_dtype (avrSWAP (self w))) v]> (buffer w).
Proof. done. Qed.

Lemma dtype_store_item i v w :
  arr_dtype (avrSWAP (self (store_item i v w))) = arr_dtype (avrSWAP (self w)).
Proof. done. Qed.

Lemma length_store_item i v w :
  length (buffer (store_item i v w)) = length (buffer w).
Proof. rewrite buffer_store_item. apply length_insert. Qed.

(** ** Stepping through a method *)

Lemma bind_getitem_Some {B} ts k v (f : spec_float -> M B) w :
  ts !! k = Some v -> bind (dict_getitem ts k) f w = f v w.
Proof. intros H. unfold bind, dict_getitem. by rewrite H. Qed.

Lemma bind_getitem_None {B} ts k (f : spec_float -> M B) w :
  ts !! k = None -> bind (dict_getitem ts k) f w = (w, inl (KeyError k)).
Proof. intros H. unfold bind, dict_getitem. by rewrite H. Qed.

Lemma bind_setitem_ok {B} i v (f : unit -> M B) w :
  (i < length (buffer w))%nat ->
  bind (avr_setitem i v) f w = f tt (store_item i v w).
Proof. intros H. unfold bind. by rewrite avr_setitem_ok. Qed.

Lemma bind_get_self {B} (f : Adapter Ext -> M B) w :
  bind get_self f w = f (self w) w.
Proof. done. Qed.

Lemma length_new_self l p lib (e : Ext) c :
  length (buffer (mk_World (new_self l p lib) e c)) = 500%nat.
Proof. apply length_replicate. Qed.

Lemma slot_store_item_eq i v w :
  (i < length (buffer w))%nat ->
  slot (store_item i v w) i = Some (cast (arr_dtype (avrSWAP (self w))) v).
Proof. intros H. unfold slot. rewrite buffer_store_item. by apply list_lookup_insert_eq. Qed.

Lemma slot_store_item_ne i j v w :
  i <> j -> slot (store_item i v w) j = slot w j.
Proof. intros H. unfold slot. rewrite buffer_store_item. by apply list_lookup_insert_ne. Qed.

End Properties.

Ltac in_range := rewrite ?length_store_item, ?length_new_self; lia.

(** Reads a slot of a world built from [store_item]s. *)
Ltac read_slot :=
  repeat first
    [ rewrite slot_store_item_eq by in_range
    | rewrite slot_store_item_ne by lia ];
  rewrite ?dtype_store_item.

Ltac step_ok :=
  first
    [ erewrite bind_getitem_Some by eassumption
    | rewrite bind_setitem_ok by in_range ].

Ltac use_lookups ts :=
  repeat match goal with
         | H : ts !! _ = _ |- _ => rewrite H
         end.


Ltac step_case H :=
  lazymatch goal with
  | |- context [bind (dict_getitem ?ts ?k) _ _] =>
      destruct (ts !! k) eqn:H;
      [ erewrite bind_getitem_Some by exact H
      | rewrite (bind_getitem_None _ _ _ _ H) ]
  end.

Section MethodProperties.
Context {Ext : Type}.
Implicit Types (w : World Ext) (ts : gmap string spec_float) (S : list nat).

(** ** [call_controller], "Add states to avr" *)

Lemma add_states_frame ts : preserves (Ext:=Ext) (frame input_slots) (add_states ts).
Proof.
  unfold add_states.
  repeat first
    [ simple apply preserves_dict_getitem
    | simple apply preserves_setitem; unfold input_slots; repeat constructor
    | simple apply preserves_bind; [apply frame_trans | | intros ?] ].
Qed.

Lemma add_states_ok ts v w :
  holds ts v -> (36 < length (buffer w))%nat ->
  add_states ts w = (written_states v w, inr tt).
Proof.
  intros (Ht & Hdt & Hp & Hgs & Hgt & Hge & Hrs & Hws & Hy & Hye) Hlen.
  unfold add_states, written_states. repeat step_ok.
  rewrite avr_setitem_ok by in_range. reflexivity.
Qed.

Lemma add_states_raises ts w w1 e :
  (36 < length (buffer w))%nat ->
  add_states ts w = (w1, inl e) ->
  exists k, e = KeyError k /\ ts !! k = None.
Proof.
  intros Hlen. unfold add_states.
  repeat first
    [ step_ok
    | let H := fresh "Hk" in
      step_case H; [| intros [= <- <-]; eexists; split; [reflexivity | exact H] ] ].
  rewrite avr_setitem_ok by in_range. discriminate.
Qed.

(** ** [call_discon] *)

Lemma length_handed w : length (handed w) = length (buffer w).
Proof.
  unfold handed, astype_float32, buffer.
  destruct (arr_dtype (avrSWAP (self w))); simpl; [apply length_fmap | done].
Qed.

Lemma handed_float32 w :
  arr_dtype (avrSWAP (self w)) = float32 -> handed w = buffer w.
Proof. unfold handed, astype_float32, buffer. by intros ->. Qed.

Lemma handed_float64 w i :
  arr_dtype (avrSWAP (self w)) = float64 ->
  handed w !! i = F32.of_f64 <$> slot w i.
Proof.
  unfold handed, astype_float32, slot, buffer. intros ->. simpl.
  apply list_lookup_fmap.
Qed.

Lemma call_discon_inv w w' r :
  call_discon w = (w', r) ->
  r = inr tt /\
  buffer w' = stores (eff_avr (foreign_effect w)) (handed w) /\
  arr_dtype (avrSWAP (self w')) = float32 /\
  calls w' = calls w ++ [handed w] /\
  ext w' = eff_ext (foreign_effect w) /\
  aviFAIL (self w') = eff_fail (foreign_effect w) /\
  avcMSG (self w') = stores (eff_msg (foreign_effect w)) (avcMSG (self w)) /\
  avcOUTNAME (self w') = stores (eff_outname (foreign_effect w)) (avcOUTNAME (self w)) /\
  discon (self w') = discon (self w).
Proof.
  unfold call_discon. intros [= <- <-].
  unfold buffer, handed, foreign_effect. simpl.
  split_and!; try done.
  unfold astype_float32. by destruct (arr_dtype (avrSWAP (self w))).
Qed.

Lemma call_discon_returns w : exists w', call_discon w = (w', inr tt).
Proof. unfold call_discon. eauto. Qed.

Lemma length_call_discon w w' r :
  call_discon w = (w', r) -> length (buffer w') = length (buffer w).
Proof.
  intros H. apply call_discon_inv in H as (_ & Hb & _).
  by rewrite Hb, length_stores, length_handed.
Qed.

(** ** [call_controller], "return controller states" *)

Lemma bind_avr_getitem {B} i (f : spec_float -> M B) w :
  bind (avr_getitem i) f w =
    match slot w i with
    | Some v => f v w
    | None => (w, inl (IndexError i))
    end.
Proof. unfold bind. rewrite avr_getitem_spec. by destruct (slot w i). Qed.

Lemma bind_modify_self {B} (g : Adapter Ext -> Adapter Ext) (f : unit -> M B) w :
  bind (modify_self g) f w = f tt (mk_World (g (self w)) (ext w) (calls w)).
Proof. done. Qed.

Lemma return_states_inv w w' r :
  return_states w = (w', r) ->
  ext w' = ext w /\ calls w' = calls w /\
  avrSWAP (self w') = avrSWAP (self w) /\
  discon (self w') = discon (self w) /\
  aviFAIL (self w') = aviFAIL (self w) /\
  avcMSG (self w') = avcMSG (self w) /\
  avcOUTNAME (self w') = avcOUTNAME (self w).
Proof.
  unfold return_states.
  rewrite bind_avr_getitem. destruct (slot w 41); [|by intros [= <- <-]].
  rewrite bind_modify_self, bind_avr_getitem.
  destruct (slot _ 46); [|by intros [= <- <-]].
  rewrite bind_modify_self, bind_avr_getitem.
  destruct (slot _ 47); [|by intros [= <- <-]].
  rewrite bind_modify_self, bind_get_self.
  by intros [= <- <-].
Qed.

Lemma return_states_ok w p t y :
  slot w 41 = Some p -> slot w 46 = Some t -> slot w 47 = Some y ->
  return_states w =
    (mk_World (set_nac_yawrate y (set_torque t (set_pitch p (self w))))
       (ext w) (calls w),
     inr (t, p, y)).
Proof.
  intros Hp Ht Hy. unfold return_states.
  rewrite bind_avr_getitem, Hp, bind_modify_self, bind_avr_getitem.
  change (slot _ 46) with (slot w 46). rewrite Ht.
  rewrite bind_modify_self, bind_avr_getitem.
  change (slot _ 47) with (slot w 47). rewrite Hy.
  by rewrite bind_modify_self, bind_get_self.
Qed.

(** ** [call_controller] *)

Lemma call_controller_inv ts w w' r :
  call_controller ts w = (w', r) ->
  (exists e, add_states ts w = (w', inl e) /\ r = inl e) \/
  (exists w1 w2,
     add_states ts w = (w1, inr tt) /\
     call_discon w1 = (w2, inr tt) /\
     return_states w2 = (w', r)).
Proof.
  unfold call_controller. intros H.
  apply bind_inv in H as [(e & H & ->)|(w1 & [] & H1 & H)]; [eauto|].
  apply bind_inv in H as [(e & H & ->)|(w2 & [] & H2 & H)].
  - by apply call_discon_inv in H as [? _].
  - right. eauto.
Qed.

Lemma call_controller_ok ts v w :
  holds ts v -> (47 < length (buffer w))%nat ->
  exists w2 t p y,
    call_discon (written_states v w) = (w2, inr tt) /\
    slot w2 41 = Some p /\ slot w2 46 = Some t /\ slot w2 47 = Some y /\
    call_controller ts w =
      (mk_World (set_nac_yawrate y (set_torque t (set_pitch p (self w2))))
         (ext w2) (calls w2),
       inr (t, p, y)).
Proof.
  intros Hts Hlen.
  destruct (call_discon_returns (written_states v w)) as [w2 Hcd].
  assert (Hl2 : length (buffer w2) = length (buffer w)).
  { rewrite (length_call_discon _ _ _ Hcd). unfold written_states. in_range. }
  destruct (lookup_lt_is_Some_2 (buffer w2) 41) as [p Hp]; [lia|].
  destruct (lookup_lt_is_Some_2 (buffer w2) 46) as [t Ht]; [lia|].
  destruct (lookup_lt_is_Some_2 (buffer w2) 47) as [y Hy]; [lia|].
  exists w2, t, p, y. repeat split; try done.
  unfold call_controller.
  rewrite (bind_ok _ _ _ _ _ (add_states_ok ts v w Hts ltac:(lia))).
  rewrite (bind_ok _ _ _ _ _ Hcd).
  by apply return_states_ok.
Qed.

End MethodProperties.

Section Construction.
Context {Ext : Type}.
Variable read_DISCON : string -> exn + gmap string spec_float.
Variable LoadLibrary : string -> exn + CDLL Ext.
Implicit Types (w : World Ext) (ts : gmap string spec_float).

Lemma init_avrSWAP_ok params g l p lib ws rr y ye (ext0 : Ext) :
  params !! "WE_GearboxRatio" = Some g ->
  init_avrSWAP params ws rr y ye (mk_World (new_self l p lib) ext0 []) =
    (init_written l p lib ws rr y ye g ext0, inr tt).
Proof.
  intros Hg. unfold init_avrSWAP, init_written. rewrite bind_get_self.
  cbn [self new_self DT num_blade char_buffer param_name].
  repeat step_ok. rewrite avr_setitem_ok by in_range. reflexivity.
Qed.

Lemma init_avrSWAP_raises params l p lib ws rr y ye (ext0 : Ext) :
  params !! "WE_GearboxRatio" = None ->
  exists w,
    init_avrSWAP params ws rr y ye (mk_World (new_self l p lib) ext0 []) =
      (w, inl (KeyError "WE_GearboxRatio")).
Proof.
  intros Hg. unfold init_avrSWAP. rewrite bind_get_self.
  cbn [self new_self DT num_blade char_buffer param_name].
  do 2 step_ok. rewrite (bind_getitem_None _ _ _ _ Hg). eauto.
Qed.

Lemma init_setup_inv l p ws rr y ye ext0 w0 :
  init_setup read_DISCON LoadLibrary l p ws rr y ye ext0 = inr w0 ->
  exists params lib g,
    read_DISCON p = inr params /\ LoadLibrary l = inr (mk_CDLL (Some lib)) /\
    params !! "WE_GearboxRatio" = Some g /\
    w0 = init_written l p lib ws rr y ye g ext0.
Proof.
  unfold init_setup.
  destruct (read_DISCON p) as [|params]; [done|].
  destruct (LoadLibrary l) as [|[[lib|]]]; [done| |];
    cbn [symbol_DISCON]; [|by destruct (params !! "WE_GearboxRatio")].
  destruct (params !! "WE_GearboxRatio") as [g|] eqn:Hg.
  - rewrite (init_avrSWAP_ok _ g) by done. intros [= <-]. by exists params, lib, g.
  - destruct (init_avrSWAP_raises params l p lib ws rr y ye ext0 Hg) as [w ->]. done.
Qed.

Lemma init_written_dtype l p lib ws rr y ye g (ext0 : Ext) :
  arr_dtype (avrSWAP (self (init_written l p lib ws rr y ye g ext0))) = float64.
Proof. reflexivity. Qed.

Lemma init_written_length l p lib ws rr y ye g (ext0 : Ext) :
  length (buffer (init_written l p lib ws rr y ye g ext0)) = 500%nat.
Proof. unfold init_written. in_range. Qed.

Lemma init_run_inv w0 w r :
  (0 < length (buffer w0))%nat ->
  init_run w0 = (w, r) ->
  exists w1,
    call_discon w0 = (w1, inr tt) /\ w = store_item 0 (F64.of_Z 1) w1 /\ r = inr tt.
Proof.
  intros Hlen. unfold init_run.
  destruct (call_discon_returns w0) as [w1 Hcd].
  rewrite (bind_ok _ _ _ _ _ Hcd).
  rewrite avr_setitem_ok by (rewrite (length_call_discon _ _ _ Hcd); lia).
  intros [= <- <-]. by exists w1.
Qed.

Lemma init_inv l p ws rr y ye ext0 w :
  __init__ read_DISCON LoadLibrary l p ws rr y ye ext0 = inr w ->
  exists w0 w1,
    init_setup read_DISCON LoadLibrary l p ws rr y ye ext0 = inr w0 /\
    call_discon w0 = (w1, inr tt) /\
    w = store_item 0 (F64.of_Z 1) w1.
Proof.
  unfold __init__.
  destruct (init_setup _ _ _ _ _ _ _ _ _) as [|w0] eqn:Hs; [done|].
  destruct (init_run w0) as [w' [e|[]]] eqn:Hr; [done|]. intros [= <-].
  destruct (init_setup_inv _ _ _ _ _ _ _ _ Hs) as (? & ? & ? & _ & _ & _ & ->).
  apply init_run_inv in Hr as (w1 & Hcd & -> & _);
    [| rewrite init_written_length; lia].
  by eexists _, w1.
Qed.

(** ** What holds of every reachable world *)

Lemma init_wf l p ws rr y ye ext0 w :
  __init__ read_DISCON LoadLibrary l p ws rr y ye ext0 = inr w -> wf w.
Proof.
  intros H. apply init_inv in H as (w0 & w1 & Hs & Hcd & ->).
  apply init_setup_inv in Hs as (? & ? & ? & _ & _ & _ & ->).
  pose proof (length_call_discon _ _ _ Hcd) as Hl.
  rewrite init_written_length in Hl.
  apply call_discon_inv in Hcd as (_ & _ & Hd & _).
  split.
  - by rewrite dtype_store_item.
  - by rewrite length_store_item.
Qed.

Lemma call_discon_wf w w' r : wf w -> call_discon w = (w', r) -> wf w'.
Proof.
  intros [Hd Hl] H. split.
  - by apply call_discon_inv in H as (_ & _ & ? & _).
  - by rewrite (length_call_discon _ _ _ H).
Qed.

Lemma frame_wf S w w' : wf w -> frame S w w' -> wf w'.
Proof.
  intros [Hd Hl] H. split.
  - by rewrite (frame_dtype _ _ _ H).
  - by rewrite (frame_length _ _ _ H).
Qed.

Lemma return_states_wf w w' r : wf w -> return_states w = (w', r) -> wf w'.
Proof.
  intros [Hd Hl] H. apply return_states_inv in H as (_ & _ & Ha & _).
  unfold wf, buffer. by rewrite Ha.
Qed.

Lemma call_controller_wf ts w w' r : wf w -> call_controller ts w = (w', r) -> wf w'.
Proof.
  intros Hwf H.
  apply call_controller_inv in H as [(e & H & _)|(w1 & w2 & H1 & H2 & H3)].
  - eapply frame_wf; [done | by eapply add_states_frame].
  - eapply return_states_wf; [|done].
    eapply call_discon_wf; [|done].
    eapply frame_wf; [done | by eapply add_states_frame].
Qed.

Lemma reachable_wf w : reachable read_DISCON LoadLibrary w -> wf w.
Proof.
  induction 1 as [l p ws rr y ye ext0 w H | w w' r _ IH H | w ts w' r _ IH H].
  - by eapply init_wf.
  - by eapply call_discon_wf.
  - by eapply call_controller_wf.
Qed.

End Construction.

(** * The claims about [call_controller] *)

Section Advance.
Context {Ext : Type}.
Implicit Types (w : World Ext) (ts : gmap string spec_float) (v : TurbineState).

Lemma discon_written_states v w : discon (self (written_states v w)) = discon (self w).
Proof. reflexivity. Qed.

Lemma length_written_states v w :
  length (buffer (written_states v w)) = length (buffer w).
Proof. unfold written_states. in_range. Qed.

Lemma frame_written_states v w : frame input_slots w (written_states v w).
Proof.
  unfold written_states.
  repeat (eapply frame_trans;
          [| apply frame_store_item; unfold input_slots; repeat constructor]).
  apply frame_refl.
Qed.

(** What [DISCON] finds in a slot that has just been assigned. *)
Lemma handed_assigned w i x :
  slot w i = Some (cast (arr_dtype (avrSWAP (self w))) x) ->
  handed w !! i = Some (F32.of_f64 x).
Proof.
  intros H. destruct (arr_dtype (avrSWAP (self w))) eqn:Hd.
  - rewrite handed_float64, H by done. done.
  - rewrite handed_float32 by done. exact H.
Qed.

Lemma add_states_returns ts w w1 :
  (36 < length (buffer w))%nat ->
  add_states ts w = (w1, inr tt) -> exists v, holds ts v.
Proof.
  intros Hlen. unfold add_states.
  repeat first
    [ step_ok
    | let H := fresh "Hk" in step_case H; [| discriminate] ].
  intros _. eexists (mk_TurbineState _ _ _ _ _ _ _ _ _ _).
  unfold holds; simpl. repeat split; eassumption.
Qed.

Lemma call_discon_always_sets w w' r i a :
  call_discon w = (w', r) ->
  always_sets (discon (self w)) i a ->
  (i < length (buffer w))%nat ->
  slot w' i = Some a.
Proof.
  intros H Ha Hi. apply call_discon_inv in H as (_ & Hbuf & _).
  unfold slot. rewrite Hbuf. apply Ha. by rewrite length_handed.
Qed.

(** C1: after the foreign call, [call_controller] reads the pitch from
    slot 41, the torque from slot 46 and the yaw rate from slot 47, keeps
    them in the attributes [pitch], [torque] and [nac_yawrate] and returns
    them as (torque, pitch, yaw rate); a routine that sets the three slots
    to given values on every call makes it return exactly these values. *)
Theorem C1_call_controller_returns_outputs ts v w :
  holds ts v -> (47 < length (buffer w))%nat ->
  exists w' t p y,
    call_controller ts w = (w', inr (t, p, y)) /\
    slot w' 41 = Some p /\ slot w' 46 = Some t /\ slot w' 47 = Some y /\
    pitch (self w') = p /\ torque (self w') = t /\ nac_yawrate (self w') = Some y /\
    (forall a b c,
       always_sets (discon (self w)) 41 a ->
       always_sets (discon (self w)) 46 b ->
       always_sets (discon (self w)) 47 c ->
       (t, p, y) = (b, a, c)).
Proof.
  intros Hts Hlen.
  destruct (call_controller_ok ts v w Hts Hlen)
    as (w2 & t & p & y & Hcd & Hp & Ht & Hy & Hcc).
  eexists _, t, p, y. split; [exact Hcc|].
  split_and!; try done.
  intros a b c Ha Hb Hc.
  rewrite <- (discon_written_states v w) in Ha, Hb, Hc.
  pose proof (length_written_states v w) as Hl.
  rewrite (call_discon_always_sets _ _ _ 41 a Hcd Ha) in Hp by lia.
  rewrite (call_discon_always_sets _ _ _ 46 b Hcd Hb) in Ht by lia.
  rewrite (call_discon_always_sets _ _ _ 47 c Hcd Hc) in Hy by lia.
  congruence.
Qed.

(** C2: with all ten fields present, [call_controller] assigns, before it
    runs [DISCON], the time to slot 1, the timestep to slot 2, the blade
    pitch to slots 3, 32 and 33, gen_speed*gen_torque*gen_eff to slot 14,
    the generator torque to slot 22, the generator speed to slot 19, the
    rotor speed to slot 20, the wind speed to slot 26, the yaw from north
    to slot 36 and the yaw error to slot 23, and changes nothing else. *)
Theorem C2_input_slots_written_exactly ts v w :
  holds ts v -> (36 < length (buffer w))%nat ->
  exists w1,
    add_states ts w = (w1, inr tt) /\
    call_controller ts w = (call_discon ;; return_states) w1 /\
    slot w1 1 = Some (cast (arr_dtype (avrSWAP (self w))) (ts_t v)) /\
    slot w1 2 = Some (cast (arr_dtype (avrSWAP (self w))) (ts_dt v)) /\
    slot w1 3 = Some (cast (arr_dtype (avrSWAP (self w))) (ts_bld_pitch v)) /\
    slot w1 32 = Some (cast (arr_dtype (avrSWAP (self w))) (ts_bld_pitch v)) /\
    slot w1 33 = Some (cast (arr_dtype (avrSWAP (self w))) (ts_bld_pitch v)) /\
    slot w1 14 =
      Some (cast (arr_dtype (avrSWAP (self w)))
              (F64.mul (F64.mul (ts_gen_speed v) (ts_gen_torque v)) (ts_gen_eff v))) /\
    slot w1 22 = Some (cast (arr_dtype (avrSWAP (self w))) (ts_gen_torque v)) /\
    slot w1 19 = Some (cast (arr_dtype (avrSWAP (self w))) (ts_gen_speed v)) /\
    slot w1 20 = Some (cast (arr_dtype (avrSWAP (self w))) (ts_rot_speed v)) /\
    slot w1 26 = Some (cast (arr_dtype (avrSWAP (self w))) (ts_ws v)) /\
    slot w1 36 = Some (cast (arr_dtype (avrSWAP (self w))) (ts_Yaw_fromNorth v)) /\
    slot w1 23 = Some (cast (arr_dtype (avrSWAP (self w))) (ts_Y_MeasErr v)) /\
    (forall i, i ∉ input_slots -> slot w1 i = slot w i) /\
    frame input_slots w w1.
Proof.
  intros Hts Hlen. exists (written_states v w).
  pose proof (add_states_ok ts v w Hts Hlen) as Hadd.
  split; [exact Hadd|]. split.
  { unfold call_controller. by rewrite (bind_ok _ _ _ _ _ Hadd). }
  split_and!; try (unfold written_states; read_slot; reflexivity).
  - intros i Hi. apply (frame_buffer input_slots); [apply frame_written_states | done].
  - apply frame_written_states.
Qed.

(** C4, as the code has it: [call_controller] does not signal a failure
    that [DISCON] reports.  Whatever the flag and the message, it returns
    as usual the values of slots 46, 41 and 47 as the routine's stores into
    the array left them, and these are what [show_control_values] shows;
    the flag and the message are kept in the attributes [aviFAIL] and
    [avcMSG] of the object. *)
Theorem C4_failure_kept_not_signalled ts v w :
  holds ts v -> (47 < length (buffer w))%nat ->
  exists w' t p y,
    call_controller ts w = (w', inr (t, p, y)) /\
    stores (eff_avr (foreign_effect (written_states v w)))
      (handed (written_states v w)) !! 46%nat = Some t /\
    stores (eff_avr (foreign_effect (written_states v w)))
      (handed (written_states v w)) !! 41%nat = Some p /\
    stores (eff_avr (foreign_effect (written_states v w)))
      (handed (written_states v w)) !! 47%nat = Some y /\
    show_control_values w' =
      (w', inr [("Pitch"%string, p); ("Torque"%string, t)]) /\
    aviFAIL (self w') = eff_fail (foreign_effect (written_states v w)) /\
    avcMSG (self w') =
      stores (eff_msg (foreign_effect (written_states v w))) (avcMSG (self w)).
Proof.
  intros Hts Hlen.
  destruct (call_controller_ok ts v w Hts Hlen)
    as (w2 & t & p & y & Hcd & Hp & Ht & Hy & Hcc).
  eexists _, t, p, y. split; [exact Hcc|].
  apply call_discon_inv in Hcd as (_ & Hbuf & _ & _ & _ & Hf & Hm & _).
  unfold slot in Hp, Ht, Hy. rewrite Hbuf in Hp, Ht, Hy.
  split_and!; [exact Ht | exact Hp | exact Hy | reflexivity | exact Hf | exact Hm].
Qed.




End Advance.

(** * The claims about the lifetime of an interface object *)

Section Lifetime.
Context {Ext : Type}.
Variable read_DISCON : string -> exn + gmap string spec_float.
Variable LoadLibrary : string -> exn + CDLL Ext.
Implicit Types (w : World Ext) (ts : gmap string spec_float).

(** ** The call-phase marker *)

Lemma call_discon_markers w w' r :
  call_discon w = (w', r) ->
  call_markers w' = call_markers w ++ [handed w !! 0%nat] /\
  (never_stores (discon (self w)) 0 -> slot w' 0 = handed w !! 0%nat).
Proof.
  intros H. apply call_discon_inv in H as (_ & Hbuf & _ & Hc & _).
  split.
  - unfold call_markers. by rewrite Hc, fmap_app.
  - intros Hns. unfold slot. rewrite Hbuf. apply lookup_stores_notin, Hns.
Qed.

Lemma zero_not_input : 0%nat ∉ input_slots.
Proof.
  unfold input_slots. intros H.
  repeat (apply elem_of_cons in H as [H|H]; [discriminate|]).
  by apply elem_of_nil in H.
Qed.

Lemma frame_markers S w w1 :
  frame S w w1 -> 0%nat ∉ S ->
  call_markers w1 = call_markers w /\ slot w1 0 = slot w 0.
Proof.
  intros Hf H0. split.
  - unfold call_markers. destruct Hf as (_ & -> & _). done.
  - by apply (frame_buffer S).
Qed.

Lemma return_states_markers w w' r :
  return_states w = (w', r) ->
  call_markers w' = call_markers w /\ slot w' 0 = slot w 0.
Proof.
  intros H. apply return_states_inv in H as (_ & Hc & Ha & _).
  unfold call_markers, slot, buffer. by rewrite Hc, Ha.
Qed.

Lemma call_controller_discon ts w w' r :
  call_controller ts w = (w', r) -> discon (self w') = discon (self w).
Proof.
  intros H.
  apply call_controller_inv in H as [(e & H & _)|(w1 & w2 & H1 & H2 & H3)].
  - eapply frame_discon. by eapply add_states_frame.
  - apply return_states_inv in H3 as (_ & _ & _ & -> & _).
    apply call_discon_inv in H2 as (_ & _ & _ & _ & _ & _ & _ & _ & ->).
    eapply frame_discon. by eapply add_states_frame.
Qed.

Lemma init_markers l p ws rr y ye ext0 w :
  __init__ read_DISCON LoadLibrary l p ws rr y ye ext0 = inr w ->
  call_markers w = [Some f_zero] /\ slot w 0 = Some f_one.
Proof.
  intros H. apply init_inv in H as (w0 & w1 & Hs & Hcd & ->).
  apply init_setup_inv in Hs as (params & lib & g & _ & _ & _ & ->).
  pose proof (length_call_discon _ _ _ Hcd) as Hl.
  rewrite init_written_length in Hl.
  destruct (call_discon_markers _ _ _ Hcd) as [Hm _].
  apply call_discon_inv in Hcd as (_ & _ & Hd & _).
  split.
  - change (call_markers (store_item 0 (F64.of_Z 1) w1)) with (call_markers w1).
    rewrite Hm. rewrite handed_float64 by apply init_written_dtype.
    unfold init_written. read_slot. reflexivity.
  - rewrite slot_store_item_eq by lia. by rewrite Hd.
Qed.

Lemma reachable_markers w :
  reachable read_DISCON LoadLibrary w ->
  never_stores (discon (self w)) 0 ->
  exists n,
    call_markers w = Some f_zero :: replicate n (Some f_one) /\
    slot w 0 = Some f_one.
Proof.
  induction 1 as [l p ws rr y ye ext0 w H | w w' r Hr IH H | w ts w' r Hr IH H];
    intros Hns.
  - exists 0%nat. by eapply init_markers.
  - pose proof (reachable_wf _ _ _ Hr) as [Hd _].
    assert (Hdis : discon (self w') = discon (self w))
      by (by apply call_discon_inv in H as (_ & _ & _ & _ & _ & _ & _ & _ & ->)).
    rewrite Hdis in Hns. destruct (IH Hns) as (n & Hm & H0).
    destruct (call_discon_markers _ _ _ H) as [Hm' H0'].
    rewrite handed_float32 in Hm', H0' by done. fold (slot w 0) in Hm', H0'.
    exists (S n). split.
    + by rewrite Hm', Hm, H0, replicate_S_end.
    + by rewrite H0'.
  - rewrite (call_controller_discon _ _ _ _ H) in Hns.
    destruct (IH Hns) as (n & Hm & H0).
    pose proof (reachable_wf _ _ _ Hr) as Hwf.
    apply call_controller_inv in H as [(e & H & _)|(w1 & w2 & H1 & H2 & H3)].
    + apply add_states_frame in H.
      destruct (frame_markers _ _ _ H zero_not_input) as [-> ->]. by exists n.
    + apply add_states_frame in H1.
      destruct (frame_markers _ _ _ H1 zero_not_input) as [Hm1 H01].
      destruct (frame_wf _ _ _ Hwf H1) as [Hd1 _].
      rewrite <- (frame_discon _ _ _ H1) in Hns.
      destruct (call_discon_markers _ _ _ H2) as [Hm2 H02].
      rewrite handed_float32 in Hm2, H02 by done. fold (slot w1 0) in Hm2, H02.
      destruct (return_states_markers _ _ _ H3) as [-> ->].
      exists (S n). split.
      * by rewrite Hm2, Hm1, Hm, H01, H0, replicate_S_end.
      * by rewrite H02, H01.
Qed.

Lemma markers_monotone n (h : list (option spec_float)) :
  h = Some f_zero :: replicate n (Some f_one) ->
  forall i j a b, (i <= j)%nat ->
    h !! i = Some (Some a) -> h !! j = Some (Some b) -> SFleb a b = true.
Proof.
  intros -> i j a b Hij Hi Hj.
  destruct i as [|i], j as [|j]; [| | lia |].
  - by simplify_eq/=.
  - cbn [lookup list_lookup] in Hi, Hj.
    apply lookup_replicate_1 in Hj as [Hb _]. by simplify_eq.
  - cbn [lookup list_lookup] in Hi, Hj.
    apply lookup_replicate_1 in Hi as [Ha _].
    apply lookup_replicate_1 in Hj as [Hb _]. by simplify_eq.
Qed.

(** C3: [DISCON] finds 0 in slot 0 at its one call during construction and
    1 at every later call; slot 0 of the object is 1 from the end of
    construction on.  Over the life of the object the marker never
    decreases and changes once, from 0 to 1 (the routine being one that
    does not store into slot 0). *)
Theorem C3_call_phase_marker w :
  reachable read_DISCON LoadLibrary w ->
  never_stores (discon (self w)) 0 ->
  (forall l p ws rr y ye ext0 w0,
     __init__ read_DISCON LoadLibrary l p ws rr y ye ext0 = inr w0 ->
     call_markers w0 = [Some f_zero] /\ slot w0 0 = Some f_one) /\
  exists n,
    call_markers w = Some f_zero :: replicate n (Some f_one) /\
    slot w 0 = Some f_one /\
    marker_history w = Some f_zero :: replicate (S n) (Some f_one) /\
    (forall i j a b, (i <= j)%nat ->
       marker_history w !! i = Some (Some a) ->
       marker_history w !! j = Some (Some b) ->
       SFleb a b = true).
Proof.
  intros Hr Hns. split; [intros; by eapply init_markers|].
  destruct (reachable_markers w Hr Hns) as (n & Hm & H0).
  exists n.
  assert (Hh : marker_history w = Some f_zero :: replicate (S n) (Some f_one)).
  { unfold marker_history. by rewrite Hm, H0, replicate_S_end. }
  split_and!; try done.
  by apply (markers_monotone (S n)).
Qed.

(** C9: the exchange buffer has exactly 500 slots at the end of
    construction and after every [call_discon] and [call_controller]. *)
Theorem C9_buffer_length_500 w :
  reachable read_DISCON LoadLibrary w -> length (buffer w) = 500%nat.
Proof. intros Hr. by destruct (reachable_wf _ _ _ Hr). Qed.

End Lifetime.

(** * The claims about construction and about one call of [DISCON] *)

Section Exchange.
Context {Ext : Type}.
Variable read_DISCON : string -> exn + gmap string spec_float.
Variable LoadLibrary : string -> exn + CDLL Ext.
Implicit Types (w : World Ext) (ts : gmap string spec_float).

Lemma call_discon_untouched w w' r i :
  call_discon w = (w', r) ->
  i ∉ written (eff_avr (foreign_effect w)) ->
  slot w' i = handed w !! i.
Proof.
  intros H Hi. apply call_discon_inv in H as (_ & Hbuf & _).
  unfold slot. rewrite Hbuf. by apply lookup_stores_notin.
Qed.

Lemma never_stores_untouched w i :
  never_stores (discon (self w)) i -> i ∉ written (eff_avr (foreign_effect w)).
Proof. intros H. apply H. Qed.

Lemma slot_new_self l p lib (e : Ext) c i :
  (i < 500)%nat -> slot (mk_World (new_self l p lib) e c) i = Some f_zero.
Proof.
  intros Hi.
  change (replicate 500 (S754_zero false) !! i = Some f_zero).
  by apply lookup_replicate_2.
Qed.

Lemma init_written_frame l p lib ws rr y ye g (ext0 : Ext) :
  frame init_slots (mk_World (new_self l p lib) ext0 [])
    (init_written l p lib ws rr y ye g ext0).
Proof.
  unfold init_written.
  repeat (eapply frame_trans;
          [| apply frame_store_item; unfold init_slots; repeat constructor]).
  apply frame_refl.
Qed.

(** The construction, taken apart: the world [w0] in which [DISCON] is
    first run, and the world [w] that [__init__] leaves. *)
Lemma init_stages l p ws rr y ye ext0 w :
  __init__ read_DISCON LoadLibrary l p ws rr y ye ext0 = inr w ->
  exists params lib g w1,
    read_DISCON p = inr params /\ LoadLibrary l = inr (mk_CDLL (Some lib)) /\
    params !! "WE_GearboxRatio" = Some g /\
    init_setup read_DISCON LoadLibrary l p ws rr y ye ext0 =
      inr (init_written l p lib ws rr y ye g ext0) /\
    call_discon (init_written l p lib ws rr y ye g ext0) = (w1, inr tt) /\
    w = store_item 0 (F64.of_Z 1) w1 /\
    calls w = [handed (init_written l p lib ws rr y ye g ext0)].
Proof.
  intros H. apply init_inv in H as (w0 & w1 & Hs & Hcd & ->).
  destruct (init_setup_inv _ _ _ _ _ _ _ _ _ _ Hs)
    as (params & lib & g & Hp & Hl & Hg & ->).
  exists params, lib, g, w1. split_and!; try done.
  apply call_discon_inv in Hcd as (_ & _ & _ & Hc & _). exact Hc.
Qed.

(** C6, as the code has it: construction assigns
    rotor_rpm_init*rpm2RadSec*gearbox_ratio to slot 19,
    rotor_rpm_init*rpm2RadSec to slot 20 and yaw_init*deg2rad to slot 36
    before it runs [DISCON]; after construction each of these slots, if
    the routine did not store into it during that one call, holds the
    float32 rounding of that value. *)
Theorem C6_initial_speeds_and_yaw l p ws rr y ye ext0 w :
  __init__ read_DISCON LoadLibrary l p ws rr y ye ext0 = inr w ->
  exists params g w0,
    read_DISCON p = inr params /\
    params !! "WE_GearboxRatio" = Some g /\
    init_setup read_DISCON LoadLibrary l p ws rr y ye ext0 = inr w0 /\
    calls w = [handed w0] /\
    slot w0 19 = Some (F64.mul (F64.mul rr rpm2RadSec) g) /\
    slot w0 20 = Some (F64.mul rr rpm2RadSec) /\
    slot w0 36 = Some (F64.mul y deg2rad) /\
    (19%nat ∉ written (eff_avr (foreign_effect w0)) ->
     slot w 19 = Some (F32.of_f64 (F64.mul (F64.mul rr rpm2RadSec) g))) /\
    (20%nat ∉ written (eff_avr (foreign_effect w0)) ->
     slot w 20 = Some (F32.of_f64 (F64.mul rr rpm2RadSec))) /\
    (36%nat ∉ written (eff_avr (foreign_effect w0)) ->
     slot w 36 = Some (F32.of_f64 (F64.mul y deg2rad))).
Proof.
  intros H.
  destruct (init_stages _ _ _ _ _ _ _ _ H)
    as (params & lib & g & w1 & Hp & Hl & Hg & Hs & Hcd & -> & Hc).
  exists params, g, (init_written l p lib ws rr y ye g ext0).
  assert (H19 : slot (init_written l p lib ws rr y ye g ext0) 19 =
                Some (F64.mul (F64.mul rr rpm2RadSec) g))
    by (unfold init_written; read_slot; reflexivity).
  assert (H20 : slot (init_written l p lib ws rr y ye g ext0) 20 =
                Some (F64.mul rr rpm2RadSec))
    by (unfold init_written; read_slot; reflexivity).
  assert (H36 : slot (init_written l p lib ws rr y ye g ext0) 36 =
                Some (F64.mul y deg2rad))
    by (unfold init_written; read_slot; reflexivity).
  split_and!; try done; intros Hns;
    rewrite slot_store_item_ne by lia;
    rewrite (call_discon_untouched _ _ _ _ Hcd) by done;
    rewrite handed_float64 by apply init_written_dtype.
  - by rewrite H19.
  - by rewrite H20.
  - by rewrite H36.
Qed.

(** C7, as the code has it: a slot that [DISCON] does not store into
    holds, after [call_discon], the float32 rounding of what it held
    before; it holds exactly what it held before when the array is already
    a float32 array, as in every call after the one of the construction. *)
Theorem C7_untouched_slots w w' r i :
  call_discon w = (w', r) ->
  i ∉ written (eff_avr (foreign_effect w)) ->
  slot w' i = handed w !! i /\
  (arr_dtype (avrSWAP (self w)) = float64 -> slot w' i = F32.of_f64 <$> slot w i) /\
  (arr_dtype (avrSWAP (self w)) = float32 -> slot w' i = slot w i) /\
  (reachable read_DISCON LoadLibrary w -> slot w' i = slot w i).
Proof.
  intros H Hi. pose proof (call_discon_untouched _ _ _ _ H Hi) as Hs.
  split_and!; try done.
  - intros Hd. by rewrite Hs, handed_float64.
  - intros Hd. by rewrite Hs, handed_float32.
  - intros Hr. destruct (reachable_wf _ _ _ Hr) as [Hd _].
    by rewrite Hs, handed_float32.
Qed.

(** C8: construction makes an array of 500 zeros and assigns 500 to slots
    48, 50 and 51 and the length of the parameter file name to slot 49;
    when [DISCON] is first run, these slots hold these values and every
    slot that construction did not assign holds zero, in the array of the
    object and in the float32 copy that the routine is given. *)
Theorem C8_construction_buffer l p ws rr y ye ext0 w :
  __init__ read_DISCON LoadLibrary l p ws rr y ye ext0 = inr w ->
  exists w0,
    init_setup read_DISCON LoadLibrary l p ws rr y ye ext0 = inr w0 /\
    calls w = [handed w0] /\
    (500 <= length (buffer w0))%nat /\ length (handed w0) = 500%nat /\
    slot w0 48 = Some (F64.of_Z 500) /\
    slot w0 50 = Some (F64.of_Z 500) /\
    slot w0 51 = Some (F64.of_Z 500) /\
    slot w0 49 = Some (F64.of_Z (Z.of_nat (String.length p))) /\
    (forall i, (i < 500)%nat -> i ∉ init_slots -> slot w0 i = Some f_zero) /\
    handed w0 !! 48%nat = Some (F32.of_Z 500) /\
    handed w0 !! 50%nat = Some (F32.of_Z 500) /\
    handed w0 !! 51%nat = Some (F32.of_Z 500) /\
    handed w0 !! 49%nat = Some (F32.of_Z (Z.of_nat (String.length p))) /\
    (forall i, (i < 500)%nat -> i ∉ init_slots -> handed w0 !! i = Some f_zero).
Proof.
  intros H.
  destruct (init_stages _ _ _ _ _ _ _ _ H)
    as (params & lib & g & w1 & _ & _ & _ & Hs & _ & _ & Hc).
  exists (init_written l p lib ws rr y ye g ext0).
  assert (Hz : forall i, (i < 500)%nat -> i ∉ init_slots ->
                 slot (init_written l p lib ws rr y ye g ext0) i = Some f_zero).
  { intros i Hi Hn.
    rewrite (frame_buffer _ _ _ _ (init_written_frame l p lib ws rr y ye g ext0) Hn).
    by apply slot_new_self. }
  split_and!.
  - exact Hs.
  - exact Hc.
  - by rewrite init_written_length.
  - by rewrite length_handed, init_written_length.
  - unfold init_written; read_slot; reflexivity.
  - unfold init_written; read_slot; reflexivity.
  - unfold init_written; read_slot; reflexivity.
  - unfold init_written; read_slot; reflexivity.
  - exact Hz.
  - rewrite handed_float64 by apply init_written_dtype.
    unfold init_written; read_slot; reflexivity.
  - rewrite handed_float64 by apply init_written_dtype.
    unfold init_written; read_slot; reflexivity.
  - rewrite handed_float64 by apply init_written_dtype.
    unfold init_written; read_slot; reflexivity.
  - rewrite handed_float64 by apply init_written_dtype.
    unfold init_written; read_slot; reflexivity.
  - intros i Hi Hn. rewrite handed_float64 by apply init_written_dtype.
    by rewrite Hz.
Qed.

(** C10: whatever its arguments and the parameter file, construction
    assigns the constant 0.1 to slot 2 and the constant 3 to slot 60, and
    that is what [DISCON] is given at its first call; every
    [call_controller] then assigns the field dt to slot 2 before it runs
    [DISCON]. *)
Theorem C10_timestep_and_blade_count :
  (forall l p ws rr y ye ext0 w,
     __init__ read_DISCON LoadLibrary l p ws rr y ye ext0 = inr w ->
     exists w0,
       init_setup read_DISCON LoadLibrary l p ws rr y ye ext0 = inr w0 /\
       calls w = [handed w0] /\
       slot w0 2 = Some lit_0_1 /\ slot w0 60 = Some (F64.of_Z 3) /\
       handed w0 !! 2%nat = Some f32_0_1 /\
       handed w0 !! 60%nat = Some (F32.of_Z 3)) /\
  (forall ts v w,
     holds ts v -> (47 < length (buffer w))%nat ->
     exists w1 w' res,
       add_states ts w = (w1, inr tt) /\
       slot w1 2 = Some (cast (arr_dtype (avrSWAP (self w))) (ts_dt v)) /\
       call_controller ts w = (w', inr res) /\
       calls w' = calls w ++ [handed w1] /\
       handed w1 !! 2%nat = Some (F32.of_f64 (ts_dt v))).
Proof.
  split.
  - intros l p ws rr y ye ext0 w H.
    destruct (init_stages _ _ _ _ _ _ _ _ H)
      as (params & lib & g & w1 & _ & _ & _ & Hs & _ & _ & Hc).
    exists (init_written l p lib ws rr y ye g ext0).
    split_and!; [exact Hs | exact Hc | | | |].
    + unfold init_written; read_slot; reflexivity.
    + unfold init_written; read_slot; reflexivity.
    + rewrite handed_float64 by apply init_written_dtype.
      unfold init_written; read_slot; reflexivity.
    + rewrite handed_float64 by apply init_written_dtype.
      unfold init_written; read_slot; reflexivity.
  - intros ts v w Hts Hlen.
    destruct (call_controller_ok ts v w Hts Hlen)
      as (w2 & t & p & y & Hcd & _ & _ & _ & Hcc).
    assert (H2 : slot (written_states v w) 2 =
                 Some (cast (arr_dtype (avrSWAP (self w))) (ts_dt v)))
      by (unfold written_states; read_slot; reflexivity).
    eexists (written_states v w), _, _.
    split_and!; [by apply add_states_ok; [|lia] | exact H2 | exact Hcc | |].
    + by apply call_discon_inv in Hcd as (_ & _ & _ & -> & _).
    + by apply handed_assigned.
Qed.

End Exchange.

(** * The claims on examples *)

Lemma inr_eq {A B} (x y : B) : @inr A B x = inr y -> x = y.
Proof. intros H. by injection H. Qed.

Lemma construct_reachable lib w :
  construct lib = inr w -> reachable params_ok (load_ok lib) w.
Proof. intros H. by eapply reach_init. Qed.

Lemma holds_state_full : holds state_full full_fields.
Proof. unfold holds. by vm_compute. Qed.

Lemma stub_const_sets :
  always_sets stub_const 41 f32_0_1 /\
  always_sets stub_const 46 f32_1000 /\
  always_sets stub_const 47 f32_0_01.
Proof.
  split_and!; intros e d f n o m l Hl; unfold stub_const, stores; simpl.
  - rewrite !list_lookup_insert_ne by lia. by apply list_lookup_insert_eq.
  - rewrite list_lookup_insert_ne by lia. apply list_lookup_insert_eq.
    by rewrite length_insert.
  - apply list_lookup_insert_eq. by rewrite !length_insert.
Qed.

Lemma stub_const_never_stores_0 : never_stores stub_const 0.
Proof.
  intros e d f n o m H. unfold stub_const, written in H. simpl in H.
  repeat (apply elem_of_cons in H as [H|H]; [discriminate|]).
  by apply elem_of_nil in H.
Qed.

Lemma stub_idle_never_stores i : never_stores stub_idle i.
Proof. intros e d f n o m H. by apply elem_of_nil in H. Qed.

Lemma C9_witness :
  reachable params_ok (load_ok stub_idle) (constructed stub_idle) /\
  length (buffer (constructed stub_idle)) = 500%nat.
Proof.
  assert (Hr : reachable params_ok (load_ok stub_idle) (constructed stub_idle)).
  { apply construct_reachable. vm_compute. reflexivity. }
  split; [exact Hr|].
  exact (C9_buffer_length_500 params_ok (load_ok stub_idle) _ Hr).
Defined.

Lemma C1_witness :
  holds state_full full_fields /\
  (47 < length (buffer (constructed stub_const)))%nat /\
  exists w',
    call_controller state_full (constructed stub_const) =
      (w', inr (f32_1000, f32_0_1, f32_0_01)).
Proof.
  split; [exact holds_state_full|]. split; [vm_compute; lia|].
  destruct (C1_call_controller_returns_outputs state_full full_fields
              (constructed stub_const) holds_state_full ltac:(vm_compute; lia))
    as (w' & t & p & y & Hcc & _ & _ & _ & _ & _ & _ & Hsets).
  destruct stub_const_sets as (Ha & Hb & Hc).
  specialize (Hsets _ _ _ Ha Hb Hc). injection Hsets as -> -> ->.
  by exists w'.
Defined.

Lemma C2_witness :
  holds state_full full_fields /\
  (36 < length (buffer (constructed stub_idle)))%nat /\
  exists w1,
    add_states state_full (constructed stub_idle) = (w1, inr tt) /\
    slot w1 1 = Some (F32.of_Z 5) /\
    slot w1 0 = slot (constructed stub_idle) 0.
Proof.
  split; [exact holds_state_full|]. split; [vm_compute; lia|].
  destruct (C2_input_slots_written_exactly state_full full_fields
              (constructed stub_idle) holds_state_full ltac:(vm_compute; lia))
    as (w1 & Hadd & _ & H1 & _ & _ & _ & _ & _ & _ & _ & _ & _ & _ & _ & Hfr & _).
  exists w1. split; [exact Hadd|]. split; [exact H1|].
  apply Hfr, zero_not_input.
Defined.

Lemma C3_witness :
  reachable params_ok (load_ok stub_const) (advanced stub_const) /\
  never_stores (discon (self (advanced stub_const))) 0 /\
  exists n,
    call_markers (advanced stub_const) = Some f_zero :: replicate n (Some f_one) /\
    slot (advanced stub_const) 0 = Some f_one.
Proof.
  assert (Hr : reachable params_ok (load_ok stub_const) (advanced stub_const)).
  { eapply (reach_call_controller _ _ (constructed stub_const) state_full);
      [apply construct_reachable | apply surjective_pairing].
    vm_compute. reflexivity. }
  split; [exact Hr|]. split; [exact stub_const_never_stores_0|].
  destruct (C3_call_phase_marker params_ok (load_ok stub_const)
              (advanced stub_const) Hr stub_const_never_stores_0)
    as (_ & n & Hm & H0 & _).
  exists n. split; [exact Hm | exact H0].
Defined.

(** C4 fails on the code: with a routine that sets the flag to -1 and
    writes ERROR, [call_controller] returns as it does with a routine that
    reports nothing, the same result, and [show_control_values] shows the
    same; the flag is in [aviFAIL] only. *)
Lemma C4_counterexample :
  aviFAIL (self (advanced stub_error)) = (-1)%Z /\
  buffer_value (avcMSG (self (advanced stub_error))) = "ERROR"%string /\
  snd (call_controller state_full (constructed stub_error)) =
    inr (f_zero, f_zero, f_zero) /\
  snd (call_controller state_full (constructed stub_idle)) =
    inr (f_zero, f_zero, f_zero) /\
  snd (show_control_values (advanced stub_error)) =
    snd (show_control_values (advanced stub_idle)).
Proof. split_and!; vm_compute; reflexivity. Qed.

Lemma C4_witness :
  holds state_full full_fields /\
  (47 < length (buffer (constructed stub_error)))%nat /\
  exists w',
    call_controller state_full (constructed stub_error) =
      (w', inr (f_zero, f_zero, f_zero)) /\
    aviFAIL (self w') = (-1)%Z /\
    buffer_value (avcMSG (self w')) = "ERROR"%string.
Proof.
  split; [exact holds_state_full|]. split; [vm_compute; lia|].
  destruct (C4_failure_kept_not_signalled state_full full_fields
              (constructed stub_error) holds_state_full ltac:(vm_compute; lia))
    as (w' & t & p & y & Hcc & Ht & Hp & Hy & _ & Hf & Hm).
  vm_compute in Ht, Hp, Hy.
  injection Ht as <-. injection Hp as <-. injection Hy as <-.
  exists w'. split; [exact Hcc|]. split.
  - rewrite Hf. vm_compute. reflexivity.
  - rewrite Hm. vm_compute. reflexivity.
Defined.



(** C6 fails on the code: after a construction with the default
    arguments and a routine that stores nothing, slot 20 holds the float32
    rounding of 4.0*rpm2RadSec, which is not 4.0*rpm2RadSec. *)
Lemma C6_counterexample :
  construct stub_idle = inr (constructed stub_idle) /\
  slot (constructed stub_idle) 20 =
    Some (F32.of_f64 (F64.mul (F64.of_Z 4) rpm2RadSec)) /\
  slot (constructed stub_idle) 20 <> Some (F64.mul (F64.of_Z 4) rpm2RadSec) /\
  slot (constructed stub_idle) 19 <>
    Some (F64.mul (F64.mul (F64.of_Z 4) rpm2RadSec) (F64.of_Z 97)).
Proof. split_and!; by vm_compute. Qed.

Lemma C6_witness :
  construct stub_late = inr (constructed stub_late) /\
  ~ never_stores stub_late 19 /\
  slot (constructed stub_late) 19 =
    Some (F32.of_f64 (F64.mul (F64.mul (F64.of_Z 4) rpm2RadSec) (F64.of_Z 97))).
Proof.
  assert (H : construct stub_late = inr (constructed stub_late))
    by (vm_compute; reflexivity).
  split; [exact H|]. split.
  { intros Hn. apply (Hn tt [f32_1000] 0%Z ""%string [] []). by left. }
  destruct (C6_initial_speeds_and_yaw params_ok (load_ok stub_late) "libdiscon.so"
              "DISCON.IN" (F64.of_Z 10) (F64.of_Z 4) (F64.of_Z 0) (F64.of_Z 0) tt
              (constructed stub_late) H)
    as (params & g & w0 & Hp & Hg & Hs & _ & _ & _ & _ & H19 & _).
  assert (Hw0 : w0 = set_up stub_late).
  { assert (Hs' : init_setup params_ok (load_ok stub_late) "libdiscon.so" "DISCON.IN"
                    (F64.of_Z 10) (F64.of_Z 4) (F64.of_Z 0) (F64.of_Z 0) tt =
                  inr (set_up stub_late)) by (vm_compute; reflexivity).
    rewrite Hs in Hs'. exact (inr_eq _ _ Hs'). }
  subst w0. injection Hp as <-.
  assert (Hg' : g = F64.of_Z 97).
  { vm_compute in Hg. injection Hg as <-. reflexivity. }
  subst g. apply H19.
  assert (Hw : written (eff_avr (foreign_effect (set_up stub_late))) = [])
    by (vm_compute; reflexivity).
  rewrite Hw. apply not_elem_of_nil.
Defined.

(** C7 fails on the code: in the call of [DISCON] that construction
    makes, a routine that stores nothing finds 0.1 in slot 2 of the object
    and leaves its float32 rounding there, which is another number. *)
Lemma C7_counterexample :
  init_setup params_ok (load_ok stub_idle) "libdiscon.so" "DISCON.IN"
    (F64.of_Z 10) (F64.of_Z 4) (F64.of_Z 0) (F64.of_Z 0) tt =
    inr (set_up stub_idle) /\
  written (eff_avr (foreign_effect (set_up stub_idle))) = [] /\
  exists w1,
    call_discon (set_up stub_idle) = (w1, inr tt) /\
    slot (set_up stub_idle) 2 = Some lit_0_1 /\
    slot w1 2 = Some f32_0_1 /\
    slot w1 2 <> slot (set_up stub_idle) 2.
Proof.
  split; [by vm_compute|]. split; [by vm_compute|].
  eexists. split; [vm_compute; reflexivity|].
  split_and!; by vm_compute.
Qed.

Lemma C7_witness :
  exists w1,
    call_discon (set_up stub_idle) = (w1, inr tt) /\
    (2%nat ∉ written (eff_avr (foreign_effect (set_up stub_idle)))) /\
    slot w1 2 = (F32.of_f64 <$> slot (set_up stub_idle) 2).
Proof.
  destruct (call_discon_returns (set_up stub_idle)) as (w1 & Hcd).
  assert (Hi : 2%nat ∉ written (eff_avr (foreign_effect (set_up stub_idle))))
    by apply not_elem_of_nil.
  exists w1. split; [exact Hcd|]. split; [exact Hi|].
  destruct (C7_untouched_slots params_ok (load_ok stub_idle) _ _ _ _ Hcd Hi)
    as (_ & H64 & _).
  apply H64. reflexivity.
Defined.

Lemma C8_witness :
  construct stub_idle = inr (constructed stub_idle) /\
  exists w0 : World unit,
    calls (constructed stub_idle) = [handed w0] /\
    length (handed w0) = 500%nat /\
    handed w0 !! 49%nat = Some (F32.of_Z 9) /\
    handed w0 !! 100%nat = Some f_zero.
Proof.
  assert (H : construct stub_idle = inr (constructed stub_idle))
    by (vm_compute; reflexivity).
  split; [exact H|].
  destruct (C8_construction_buffer params_ok (load_ok stub_idle) "libdiscon.so" "DISCON.IN"
              (F64.of_Z 10) (F64.of_Z 4) (F64.of_Z 0) (F64.of_Z 0) tt
              (constructed stub_idle) H)
    as (w0 & _ & Hc & _ & Hl & _ & _ & _ & _ & _ & _ & _ & _ & H49 & Hz).
  exists w0. split; [exact Hc|]. split; [exact Hl|]. split; [exact H49|].
  apply Hz; [lia|]. unfold init_slots. intros Hin.
  repeat (apply elem_of_cons in Hin as [Hin|Hin]; [discriminate|]).
  by apply elem_of_nil in Hin.
Defined.

Lemma C10_witness :
  construct stub_idle = inr (constructed stub_idle) /\
  holds state_full full_fields /\
  (47 < length (buffer (constructed stub_idle)))%nat /\
  (exists w0 : World unit,
     calls (constructed stub_idle) = [handed w0] /\
     handed w0 !! 2%nat = Some f32_0_1 /\ handed w0 !! 60%nat = Some (F32.of_Z 3)) /\
  (exists (w1 : World unit) w' res,
     call_controller state_full (constructed stub_idle) = (w', inr res) /\
     calls w' = calls (constructed stub_idle) ++ [handed w1] /\
     handed w1 !! 2%nat = Some f32_0_1).
Proof.
  assert (H : construct stub_idle = inr (constructed stub_idle))
    by (vm_compute; reflexivity).
  assert (Hlen : (47 < length (buffer (constructed stub_idle)))%nat)
    by (vm_compute; lia).
  destruct (C10_timestep_and_blade_count params_ok (load_ok stub_idle)) as [Hi Ha].
  split; [exact H|]. split; [exact holds_state_full|]. split; [exact Hlen|].
  split.
  - destruct (Hi "libdiscon.so" "DISCON.IN" (F64.of_Z 10) (F64.of_Z 4) (F64.of_Z 0)
                (F64.of_Z 0) tt (constructed stub_idle) H) as (w0 & _ & Hc & _ & _ & H2 & H60).
    exists w0. split; [exact Hc|]. split; [exact H2 | exact H60].
  - destruct (Ha state_full full_fields (constructed stub_idle) holds_state_full Hlen)
      as (w1 & w' & res & _ & _ & Hcc & Hc & H2).
    exists w1, w', res. split; [exact Hcc|]. split; [exact Hc | exact H2].
Defined.

(** * More properties of the class *)

Section Attributes.
Context {Ext : Type}.
Implicit Types (w : World Ext) (ts : gmap string spec_float) (v : TurbineState).

Lemma same_config_refl w : same_config w w.
Proof. by repeat split. Qed.

Lemma same_config_trans w1 w2 w3 :
  same_config w1 w2 -> same_config w2 w3 -> same_config w1 w3.
Proof.
  unfold same_config.
  intros (? & ? & ? & ? & ? & ? & ? & ?) (? & ? & ? & ? & ? & ? & ? & ?).
  split_and!; congruence.
Qed.

Lemma frame_same_config S w w1 : frame S w w1 -> same_config w w1.
Proof. intros (_ & _ & d & Hs & _). unfold same_config. by rewrite Hs. Qed.

Lemma frame_same_outputs S w w1 : frame S w w1 -> same_outputs w w1.
Proof. intros (_ & _ & d & Hs & _). unfold same_outputs. by rewrite Hs. Qed.

Lemma frame_same_foreign S w w1 :
  frame S w w1 ->
  aviFAIL (self w1) = aviFAIL (self w) /\
  avcMSG (self w1) = avcMSG (self w) /\
  avcOUTNAME (self w1) = avcOUTNAME (self w).
Proof. intros (_ & _ & d & Hs & _). by rewrite Hs. Qed.

Lemma call_discon_same w w' r :
  call_discon w = (w', r) -> same_config w w' /\ same_outputs w w'.
Proof. unfold call_discon. intros [= <- <-]. by repeat split. Qed.

Lemma return_states_same_config w w' r :
  return_states w = (w', r) -> same_config w w'.
Proof.
  unfold return_states.
  rewrite bind_avr_getitem. destruct (slot w 41); [|by intros [= <- <-]].
  rewrite bind_modify_self, bind_avr_getitem.
  destruct (slot _ 46); [|by intros [= <- <-]].
  rewrite bind_modify_self, bind_avr_getitem.
  destruct (slot _ 47); [|by intros [= <- <-]].
  rewrite bind_modify_self, bind_get_self.
  by intros [= <- <-].
Qed.

Lemma return_states_outputs w w' t p y :
  return_states w = (w', inr (t, p, y)) ->
  pitch (self w') = p /\ torque (self w') = t /\ nac_yawrate (self w') = Some y.
Proof.
  unfold return_states.
  rewrite bind_avr_getitem. destruct (slot w 41); [|by intros [= <- <-]].
  rewrite bind_modify_self, bind_avr_getitem.
  destruct (slot _ 46); [|by intros [= <- <-]].
  rewrite bind_modify_self, bind_avr_getitem.
  destruct (slot _ 47); [|by intros [= <- <-]].
  rewrite bind_modify_self, bind_get_self.
  by intros [= <- <- <- <-].
Qed.

Lemma call_controller_same_config ts w w' r :
  call_controller ts w = (w', r) -> same_config w w'.
Proof.
  intros H.
  apply call_controller_inv in H as [(e & H & _)|(w1 & w2 & H1 & H2 & H3)].
  - eapply frame_same_config. by eapply add_states_frame.
  - eapply same_config_trans; [|by eapply return_states_same_config].
    eapply same_config_trans; [|by eapply call_discon_same].
    eapply frame_same_config. by eapply add_states_frame.
Qed.

Lemma show_control_values_spec w :
  show_control_values w =
    (w, inr [("Pitch"%string, pitch (self w)); ("Torque"%string, torque (self w))]).
Proof. reflexivity. Qed.

(** A [call_controller] that raises did so while adding the states. *)
Lemma call_controller_raises_inv ts w w' e :
  (47 < length (buffer w))%nat ->
  call_controller ts w = (w', inl e) ->
  add_states ts w = (w', inl e).
Proof.
  intros Hlen H.
  apply call_controller_inv in H as [(e' & H & [= ->])|(w1 & w2 & H1 & H2 & H3)];
    [done|].
  pose proof (length_call_discon _ _ _ H2) as Hl2.
  rewrite (frame_length _ _ _ (add_states_frame _ _ _ _ H1)) in Hl2.
  destruct (lookup_lt_is_Some_2 (buffer w2) 41) as [p Hp]; [lia|].
  destruct (lookup_lt_is_Some_2 (buffer w2) 46) as [t Ht]; [lia|].
  destruct (lookup_lt_is_Some_2 (buffer w2) 47) as [y Hy]; [lia|].
  by rewrite (return_states_ok w2 p t y Hp Ht Hy) in H3.
Qed.

(** X4: after a [call_controller] that returned (torque, pitch, yaw
    rate), [show_control_values] shows that pitch and that torque, and
    the attribute [nac_yawrate] holds that yaw rate. *)
Theorem X4_show_after_call ts w w' t p y :
  call_controller ts w = (w', inr (t, p, y)) ->
  show_control_values w' =
    (w', inr [("Pitch"%string, p); ("Torque"%string, t)]) /\
  getattr_nac_yawrate w' = (w', inr y).
Proof.
  intros H.
  apply call_controller_inv in H as [(e & _ & [=])|(w1 & w2 & _ & _ & H3)].
  apply return_states_outputs in H3 as (Hp & Ht & Hy).
  rewrite show_control_values_spec, Hp, Ht. split; [done|].
  unfold getattr_nac_yawrate. rewrite bind_get_self, Hy. done.
Qed.

(** X5: a [call_controller] that raises leaves the last outputs, the
    status flag, the message and the state of the library as they were, and
    has not run [DISCON]; [show_control_values] shows what it showed
    before. *)
Theorem X5_failed_call_keeps_outputs ts w w' e :
  (47 < length (buffer w))%nat ->
  call_controller ts w = (w', inl e) ->
  same_outputs w w' /\
  aviFAIL (self w') = aviFAIL (self w) /\
  avcMSG (self w') = avcMSG (self w) /\
  ext w' = ext w /\ calls w' = calls w /\
  snd (show_control_values w') = snd (show_control_values w).
Proof.
  intros Hlen H. apply call_controller_raises_inv in H; [|done].
  apply add_states_frame in H.
  destruct (frame_same_outputs _ _ _ H) as (Hp & Ht & Hy).
  destruct (frame_same_foreign _ _ _ H) as (Hf & Hm & _).
  destruct H as (He & Hc & _).
  split_and!; try done.
  rewrite !show_control_values_spec. simpl. by rewrite Hp, Ht.
Qed.

End Attributes.

Section Calls.
Context {Ext : Type}.
Implicit Types (w : World Ext) (ts : gmap string spec_float) (v : TurbineState).

Lemma bind_raises {A B} (m : M A) (k : A -> M B) w w1 e :
  m w = (w1, inl e) -> bind m k w = (w1, inl e).
Proof. unfold bind. by intros ->. Qed.

Lemma add_states_first_missing ts w w1 r :
  (36 < length (buffer w))%nat ->
  add_states ts w = (w1, r) ->
  r = match first_missing ts with
      | Some k => inl (KeyError k)
      | None => inr tt
      end.
Proof.
  intros Hlen. unfold add_states.
  repeat first
    [ step_ok
    | let H := fresh "Hk" in
      step_case H;
      [| intros [= <- <-]; unfold first_missing, field_order, is_missing;
         cbn [List.find]; use_lookups ts; reflexivity ] ].
  rewrite avr_setitem_ok by in_range. intros [= <- <-].
  unfold first_missing, field_order, is_missing. cbn [List.find].
  use_lookups ts. reflexivity.
Qed.

Lemma first_missing_lacks ts k : first_missing ts = Some k -> ts !! k = None.
Proof.
  intros H. apply find_some in H as [_ H]. unfold is_missing in H.
  by destruct (ts !! k).
Qed.

(** X2: for a turbine state whose fields are floats, on an object with
    its array, [call_controller] returns exactly when the state has all ten
    fields; otherwise it raises KeyError for the first field, in the order
    t, dt, bld_pitch, gen_speed, gen_torque, gen_eff, rot_speed, ws,
    Yaw_fromNorth, Y_MeasErr, that the state lacks. *)
Theorem X2_raises_first_missing_field ts w :
  (47 < length (buffer w))%nat ->
  match first_missing ts with
  | Some k =>
      ts !! k = None /\
      exists w', call_controller ts w = (w', inl (KeyError k))
  | None =>
      (exists v, holds ts v) /\
      exists w' res, call_controller ts w = (w', inr res)
  end.
Proof.
  intros Hlen. destruct (add_states ts w) as [w1 r] eqn:Hadd.
  pose proof (add_states_first_missing ts w w1 r ltac:(lia) Hadd) as Hr.
  destruct (first_missing ts) as [k|] eqn:Hfm; subst r.
  - split; [by apply first_missing_lacks|].
    exists w1. unfold call_controller. by rewrite (bind_raises _ _ _ _ _ Hadd).
  - destruct (add_states_returns ts w w1 ltac:(lia) Hadd) as [v Hv].
    split; [by exists v|].
    destruct (call_controller_ok ts v w Hv Hlen) as (w2 & t & p & y & _ & _ & _ & _ & Hcc).
    eauto.
Qed.

Lemma add_states_keeps_time ts w w1 e x :
  (36 < length (buffer w))%nat ->
  ts !! "t" = Some x ->
  add_states ts w = (w1, inl e) ->
  slot w1 1 = Some (cast (arr_dtype (avrSWAP (self w))) x).
Proof.
  intros Hlen Ht. unfold add_states.
  repeat first
    [ step_ok
    | let H := fresh "Hk" in
      step_case H; [| intros [= <- <-]; read_slot; reflexivity ] ].
  rewrite avr_setitem_ok by in_range. discriminate.
Qed.

(** X6: nothing is undone when [call_controller] raises: if the turbine
    state has the field t, slot 1 holds the new time although the call
    raised. *)
Theorem X6_raise_keeps_written_time ts w w' e x :
  (47 < length (buffer w))%nat ->
  ts !! "t" = Some x ->
  call_controller ts w = (w', inl e) ->
  slot w' 1 = Some (cast (arr_dtype (avrSWAP (self w))) x).
Proof.
  intros Hlen Ht H. apply call_controller_raises_inv in H; [|done].
  by eapply add_states_keeps_time; [lia | |].
Qed.

Lemma slot_written_states v w i :
  (36 < length (buffer w))%nat -> i ∈ input_slots ->
  slot (written_states v w) i =
    Some (cast (arr_dtype (avrSWAP (self w))) (input_value v i)).
Proof.
  intros Hlen Hi. unfold input_slots in Hi.
  repeat (apply elem_of_cons in Hi as [->|Hi];
          [unfold written_states; read_slot; reflexivity|]).
  by apply elem_of_nil in Hi.
Qed.

Lemma dtype_written_states v w :
  arr_dtype (avrSWAP (self (written_states v w))) = arr_dtype (avrSWAP (self w)).
Proof. reflexivity. Qed.

(** X7: what [DISCON] is given in the twelve input slots is the float32
    value of the turbine state's fields and nothing of what the array held
    before: two objects in any state hand the routine the same values
    there. *)
Theorem X7_inputs_from_state_only ts v w w' :
  holds ts v ->
  (47 < length (buffer w))%nat -> (47 < length (buffer w'))%nat ->
  exists w2 res d w2' res' d',
    call_controller ts w = (w2, inr res) /\ calls w2 = calls w ++ [d] /\
    call_controller ts w' = (w2', inr res') /\ calls w2' = calls w' ++ [d'] /\
    forall i, i ∈ input_slots ->
      d !! i = Some (F32.of_f64 (input_value v i)) /\ d' !! i = d !! i.
Proof.
  intros Hts Hlen Hlen'.
  destruct (call_controller_ok ts v w Hts Hlen) as (w2 & t & p & y & Hcd & _ & _ & _ & Hcc).
  destruct (call_controller_ok ts v w' Hts Hlen')
    as (w2' & t' & p' & y' & Hcd' & _ & _ & _ & Hcc').
  apply call_discon_inv in Hcd as (_ & _ & _ & Hc & _).
  apply call_discon_inv in Hcd' as (_ & _ & _ & Hc' & _).
  eexists _, _, (handed (written_states v w)), _, _, (handed (written_states v w')).
  split; [exact Hcc|]. split; [exact Hc|]. split; [exact Hcc'|]. split; [exact Hc'|].
  intros i Hi.
  assert (H1 : forall w0, (47 < length (buffer w0))%nat ->
             handed (written_states v w0) !! i = Some (F32.of_f64 (input_value v i))).
  { intros w0 Hl0. apply handed_assigned. rewrite dtype_written_states.
    apply slot_written_states; [lia | done]. }
  by rewrite !H1.
Qed.


(** X9: [call_controller] returns what slots 46, 41 and 47 held before
    the call whenever [DISCON] does not store into them in that call: old
    commands are returned again. *)
Theorem X9_unset_outputs_are_old ts v w :
  holds ts v ->
  arr_dtype (avrSWAP (self w)) = float32 ->
  (47 < length (buffer w))%nat ->
  (forall i, i ∈ [41; 46; 47]%nat ->
     i ∉ written (eff_avr (foreign_effect (written_states v w)))) ->
  exists w' t p y,
    call_controller ts w = (w', inr (t, p, y)) /\
    slot w 46 = Some t /\ slot w 41 = Some p /\ slot w 47 = Some y.
Proof.
  intros Hts Hd Hlen Hns.
  destruct (call_controller_ok ts v w Hts Hlen)
    as (w2 & t & p & y & Hcd & Hp & Ht & Hy & Hcc).
  assert (Hold : forall i, i ∈ [41; 46; 47]%nat -> slot w2 i = slot w i).
  { intros i Hi. pose proof (Hns i Hi) as Hn.
    apply call_discon_inv in Hcd as (_ & Hbuf & _).
    unfold slot at 1. rewrite Hbuf, lookup_stores_notin by done.
    rewrite handed_float32 by (by rewrite dtype_written_states).
    apply (frame_buffer input_slots); [apply frame_written_states|].
    unfold input_slots. intros Hin.
    repeat (apply elem_of_cons in Hi as [->|Hi];
            [repeat (apply elem_of_cons in Hin as [Hin|Hin]; [discriminate|]);
             by apply elem_of_nil in Hin|]).
    by apply elem_of_nil in Hi. }
  eexists _, t, p, y. split; [exact Hcc|].
  rewrite <- !Hold by (repeat constructor). done.
Qed.

End Calls.

Section ConstructionOutcome.
Context {Ext : Type}.
Variable read_DISCON : string -> exn + gmap string spec_float.
Variable LoadLibrary : string -> exn + CDLL Ext.
Implicit Types (w : World Ext) (ts : gmap string spec_float).



(** X3: construction runs [DISCON] once but does not read its commands:
    the new object has pitch 0 and torque 0, which is what
    [show_control_values] shows, and no attribute [nac_yawrate] yet,
    whatever the routine stored. *)
Theorem X3_outputs_after_construction l p ws rr y ye ext0 w :
  __init__ read_DISCON LoadLibrary l p ws rr y ye ext0 = inr w ->
  pitch (self w) = F64.of_Z 0 /\
  torque (self w) = F64.of_Z 0 /\
  getattr_nac_yawrate w = (w, inl (AttributeError "nac_yawrate")) /\
  show_control_values w =
    (w, inr [("Pitch"%string, F64.of_Z 0); ("Torque"%string, F64.of_Z 0)]).
Proof.
  intros H. apply init_inv in H as (w0 & w1 & Hs & Hcd & ->).
  apply init_setup_inv in Hs as (params & lib & g & _ & _ & _ & ->).
  destruct (call_discon_same _ _ _ Hcd) as [_ (Hp & Ht & Hy)].
  change (pitch (self (init_written l p lib ws rr y ye g ext0))) with (F64.of_Z 0) in Hp.
  change (torque (self (init_written l p lib ws rr y ye g ext0))) with (F64.of_Z 0) in Ht.
  change (nac_yawrate (self (init_written l p lib ws rr y ye g ext0)))
    with (@None spec_float) in Hy.
  rewrite show_control_values_spec. unfold getattr_nac_yawrate.
  rewrite bind_get_self.
  cbn [self store_item pitch torque nac_yawrate set_avrSWAP].
  rewrite Hp, Ht, Hy. done.
Qed.

Lemma reachable_config w :
  reachable read_DISCON LoadLibrary w ->
  (exists lib params,
     LoadLibrary (lib_name (self w)) = inr (mk_CDLL (Some lib)) /\
     read_DISCON (param_name (self w)) = inr params /\
     discon (self w) = lib) /\
  accINFILE (self w) = utf8_encode (param_name (self w)) /\
  DT (self w) = lit_0_1 /\ num_blade (self w) = 3 /\
  char_buffer (self w) = 500 /\ avr_size (self w) = 500%nat.
Proof.
  induction 1 as [l p ws rr y ye ext0 w H | w w' r Hr IH H | w ts w' r Hr IH H].
  - apply init_inv in H as (w0 & w1 & Hs & Hcd & ->).
    apply init_setup_inv in Hs as (params & lib & g & Hp & Hl & _ & ->).
    destruct (call_discon_same _ _ _ Hcd)
      as [(H1 & H2 & H3 & H4 & H5 & H6 & H7 & H8) _].
    cbn [self store_item lib_name param_name DT num_blade char_buffer avr_size
         accINFILE discon set_avrSWAP].
    rewrite H1, H2, H3, H4, H5, H6, H7, H8.
    split; [by exists lib, params|]. done.
  - destruct (call_discon_same _ _ _ H)
      as [(H1 & H2 & H3 & H4 & H5 & H6 & H7 & H8) _].
    by rewrite H1, H2, H3, H4, H5, H6, H7, H8.
  - destruct (call_controller_same_config _ _ _ _ H)
      as (H1 & H2 & H3 & H4 & H5 & H6 & H7 & H8).
    by rewrite H1, H2, H3, H4, H5, H6, H7, H8.
Qed.

Lemma call_discon_char_buffers w w' r :
  call_discon w = (w', r) ->
  length (avcMSG (self w')) = length (avcMSG (self w)) /\
  length (avcOUTNAME (self w')) = length (avcOUTNAME (self w)).
Proof.
  intros H. apply call_discon_inv in H as (_ & _ & _ & _ & _ & _ & -> & -> & _).
  by rewrite !length_stores.
Qed.

Lemma reachable_char_buffers w :
  reachable read_DISCON LoadLibrary w ->
  length (avcMSG (self w)) = 1000%nat /\ length (avcOUTNAME (self w)) = 1000%nat.
Proof.
  induction 1 as [l p ws rr y ye ext0 w H | w w' r Hr IH H | w ts w' r Hr IH H].
  - apply init_inv in H as (w0 & w1 & Hs & Hcd & ->).
    apply init_setup_inv in Hs as (params & lib & g & _ & _ & _ & ->).
    destruct (call_discon_char_buffers _ _ _ Hcd) as [Hm Ho].
    cbn [self store_item avcMSG avcOUTNAME set_avrSWAP].
    rewrite Hm, Ho. split; apply length_replicate.
  - destruct (call_discon_char_buffers _ _ _ H) as [-> ->]. exact IH.
  - apply call_controller_inv in H as [(e & H & _)|(w1 & w2 & H1 & H2 & H3)].
    + apply add_states_frame in H.
      by destruct (frame_same_foreign _ _ _ H) as (_ & -> & ->).
    + apply add_states_frame in H1.
      destruct (frame_same_foreign _ _ _ H1) as (_ & Hm1 & Ho1).
      destruct (call_discon_char_buffers _ _ _ H2) as [Hm2 Ho2].
      apply return_states_inv in H3 as (_ & _ & _ & _ & _ & -> & ->).
      by rewrite Hm2, Ho2, Hm1, Ho1.
Qed.

(** X10: what stays fixed over the life of an object: the routine it
    calls is the entry point DISCON of the library loaded from [lib_name],
    the file name given to the routine is the UTF-8 encoding of
    [param_name], DT, num_blade, char_buffer and avr_size keep
    their values 0.1, 3, 500 and 500, avr_size is the length of the array,
    the array is a float32 array, and the two character buffers keep their
    1000 bytes. *)
Theorem X10_fixed_over_lifetime w :
  reachable read_DISCON LoadLibrary w ->
  (exists lib params,
     LoadLibrary (lib_name (self w)) = inr (mk_CDLL (Some lib)) /\
     read_DISCON (param_name (self w)) = inr params /\
     discon (self w) = lib) /\
  accINFILE (self w) = utf8_encode (param_name (self w)) /\
  DT (self w) = lit_0_1 /\ num_blade (self w) = 3 /\
  char_buffer (self w) = 500 /\
  avr_size (self w) = length (buffer w) /\
  arr_dtype (avrSWAP (self w)) = float32 /\
  length (avcMSG (self w)) = 1000%nat /\
  length (avcOUTNAME (self w)) = 1000%nat.
Proof.
  intros Hr.
  destruct (reachable_config w Hr) as (Hlib & Ha & Hdt & Hnb & Hcb & Has).
  destruct (reachable_char_buffers w Hr) as [Hm Ho].
  destruct (reachable_wf _ _ _ Hr) as [Hd Hl].
  split_and!; try done. by rewrite Hl.
Qed.

(** X11: construction gives [DISCON], at its first call, the float32
    values of wind_speed_init in slot 26 and of yaw_error_init in slot 23;
    a slot of these that the routine does not store into still holds that
    value when construction is over. *)
Theorem X11_initial_wind_and_yaw_error l p ws rr y ye ext0 w :
  __init__ read_DISCON LoadLibrary l p ws rr y ye ext0 = inr w ->
  exists w0,
    init_setup read_DISCON LoadLibrary l p ws rr y ye ext0 = inr w0 /\
    calls w = [handed w0] /\
    handed w0 !! 26%nat = Some (F32.of_f64 ws) /\
    handed w0 !! 23%nat = Some (F32.of_f64 ye) /\
    (never_stores (discon (self w)) 26 -> slot w 26 = Some (F32.of_f64 ws)) /\
    (never_stores (discon (self w)) 23 -> slot w 23 = Some (F32.of_f64 ye)).
Proof.
  intros H.
  destruct (init_stages _ _ _ _ _ _ _ _ _ _ H)
    as (params & lib & g & w1 & _ & _ & _ & Hs & Hcd & -> & Hc).
  exists (init_written l p lib ws rr y ye g ext0).
  assert (H26 : handed (init_written l p lib ws rr y ye g ext0) !! 26%nat =
                Some (F32.of_f64 ws)).
  { rewrite handed_float64 by apply init_written_dtype.
    unfold init_written; read_slot; reflexivity. }
  assert (H23 : handed (init_written l p lib ws rr y ye g ext0) !! 23%nat =
                Some (F32.of_f64 ye)).
  { rewrite handed_float64 by apply init_written_dtype.
    unfold init_written; read_slot; reflexivity. }
  assert (Hdis : discon (self (store_item 0 (F64.of_Z 1) w1)) =
                 discon (self (init_written l p lib ws rr y ye g ext0))).
  { pose proof (call_discon_inv _ _ _ Hcd) as (_ & _ & _ & _ & _ & _ & _ & _ & Hd').
    exact Hd'. }
  split_and!; [exact Hs | exact Hc | exact H26 | exact H23 | |];
    intros Hns; rewrite Hdis in Hns;
    rewrite slot_store_item_ne by lia;
    by rewrite (call_discon_untouched _ _ _ _ Hcd) by (by apply never_stores_untouched).
Qed.

End ConstructionOutcome.

(** * The further properties on examples *)

Lemma X2_witness :
  (47 < length (buffer (constructed stub_idle)))%nat /\
  first_missing state_no_gen_eff = Some "gen_eff"%string /\
  exists w',
    call_controller state_no_gen_eff (constructed stub_idle) =
      (w', inl (KeyError "gen_eff")).
Proof.
  assert (Hlen : (47 < length (buffer (constructed stub_idle)))%nat)
    by (vm_compute; lia).
  assert (Hfm : first_missing state_no_gen_eff = Some "gen_eff"%string)
    by (vm_compute; reflexivity).
  split; [exact Hlen|]. split; [exact Hfm|].
  pose proof (X2_raises_first_missing_field state_no_gen_eff
                (constructed stub_idle) Hlen) as H.
  rewrite Hfm in H. exact (proj2 H).
Defined.

Lemma X3_witness :
  construct stub_const = inr (constructed stub_const) /\
  slot (constructed stub_const) 41 = Some f32_0_1 /\
  pitch (self (constructed stub_const)) = F64.of_Z 0 /\
  torque (self (constructed stub_const)) = F64.of_Z 0.
Proof.
  assert (H : construct stub_const = inr (constructed stub_const))
    by (vm_compute; reflexivity).
  split; [exact H|]. split; [vm_compute; reflexivity|].
  destruct (X3_outputs_after_construction params_ok (load_ok stub_const)
              "libdiscon.so" "DISCON.IN" (F64.of_Z 10) (F64.of_Z 4) (F64.of_Z 0)
              (F64.of_Z 0) tt (constructed stub_const) H)
    as (Hp & Ht & _).
  split; [exact Hp | exact Ht].
Defined.

Lemma advanced_stub_const :
  call_controller state_full (constructed stub_const) =
    (advanced stub_const, inr (f32_1000, f32_0_1, f32_0_01)).
Proof. vm_compute. reflexivity. Qed.

Lemma X4_witness :
  call_controller state_full (constructed stub_const) =
    (advanced stub_const, inr (f32_1000, f32_0_1, f32_0_01)) /\
  show_control_values (advanced stub_const) =
    (advanced stub_const,
     inr [("Pitch"%string, f32_0_1); ("Torque"%string, f32_1000)]).
Proof.
  split; [exact advanced_stub_const|].
  exact (proj1 (X4_show_after_call state_full (constructed stub_const)
                  (advanced stub_const) f32_1000 f32_0_1 f32_0_01
                  advanced_stub_const)).
Defined.

Lemma X5_witness :
  (47 < length (buffer (advanced stub_const)))%nat /\
  exists w',
    call_controller state_t_only (advanced stub_const) = (w', inl (KeyError "dt")) /\
    same_outputs (advanced stub_const) w' /\
    pitch (self w') = f32_0_1.
Proof.
  assert (Hlen : (47 < length (buffer (advanced stub_const)))%nat)
    by (vm_compute; lia).
  split; [exact Hlen|].
  assert (H : exists w', call_controller state_t_only (advanced stub_const) =
                           (w', inl (KeyError "dt")))
    by (eexists; vm_compute; reflexivity).
  destruct H as (w' & Hcc). exists w'. split; [exact Hcc|].
  destruct (X5_failed_call_keeps_outputs state_t_only (advanced stub_const) w' _
              Hlen Hcc) as (Hout & _).
  split; [exact Hout|].
  destruct Hout as (Hp & _). rewrite Hp. vm_compute. reflexivity.
Defined.

Lemma X6_witness :
  (47 < length (buffer (constructed stub_idle)))%nat /\
  state_t_only !! "t" = Some (F64.of_Z 5) /\
  exists w',
    call_controller state_t_only (constructed stub_idle) = (w', inl (KeyError "dt")) /\
    slot w' 1 = Some (F32.of_Z 5).
Proof.
  assert (Hlen : (47 < length (buffer (constructed stub_idle)))%nat)
    by (vm_compute; lia).
  assert (Ht : state_t_only !! "t" = Some (F64.of_Z 5)) by (vm_compute; reflexivity).
  split; [exact Hlen|]. split; [exact Ht|].
  assert (H : exists w', call_controller state_t_only (constructed stub_idle) =
                           (w', inl (KeyError "dt")))
    by (eexists; vm_compute; reflexivity).
  destruct H as (w' & Hcc). exists w'. split; [exact Hcc|].
  exact (X6_raise_keeps_written_time state_t_only (constructed stub_idle) w' _ _
           Hlen Ht Hcc).
Defined.

Lemma X7_witness :
  holds state_full full_fields /\
  (47 < length (buffer (constructed stub_idle)))%nat /\
  (47 < length (buffer (advanced stub_idle)))%nat /\
  exists d d' : list spec_float,
    d !! 14%nat = Some (F32.of_Z 200000) /\ d' !! 14%nat = d !! 14%nat.
Proof.
  assert (Hlen : (47 < length (buffer (constructed stub_idle)))%nat)
    by (vm_compute; lia).
  assert (Hlen' : (47 < length (buffer (advanced stub_idle)))%nat)
    by (vm_compute; lia).
  split; [exact holds_state_full|]. split; [exact Hlen|]. split; [exact Hlen'|].
  destruct (X7_inputs_from_state_only state_full full_fields
              (constructed stub_idle) (advanced stub_idle)
              holds_state_full Hlen Hlen')
    as (w2 & res & d & w2' & res' & d' & _ & _ & _ & _ & Hin).
  exists d, d'.
  assert (H14 : 14%nat ∈ input_slots) by (unfold input_slots; repeat constructor).
  destruct (Hin _ H14) as [Hd Hd']. split; [exact Hd | exact Hd'].
Defined.


Lemma X9_witness :
  holds state_full full_fields /\
  arr_dtype (avrSWAP (self (constructed stub_idle))) = float32 /\
  (47 < length (buffer (constructed stub_idle)))%nat /\
  exists w',
    call_controller state_full (constructed stub_idle) =
      (w', inr (f_zero, f_zero, f_zero)).
Proof.
  assert (Hlen : (47 < length (buffer (constructed stub_idle)))%nat)
    by (vm_compute; lia).
  assert (Hd : arr_dtype (avrSWAP (self (constructed stub_idle))) = float32)
    by (vm_compute; reflexivity).
  split; [exact holds_state_full|]. split; [exact Hd|]. split; [exact Hlen|].
  destruct (X9_unset_outputs_are_old state_full full_fields
              (constructed stub_idle) holds_state_full Hd Hlen)
    as (w' & t & p & y & Hcc & Ht & Hp & Hy).
  { intros i _. apply not_elem_of_nil. }
  exists w'.
  vm_compute in Ht, Hp, Hy.
  injection Ht as <-. injection Hp as <-. injection Hy as <-. exact Hcc.
Defined.

Lemma X10_witness :
  reachable params_ok (load_ok stub_idle) constructed_umlaut /\
  discon (self constructed_umlaut) = stub_idle /\
  String.length (param_name (self constructed_umlaut)) = 9%nat /\
  String.length (accINFILE (self constructed_umlaut)) = 10%nat /\
  slot constructed_umlaut 49 = Some (F32.of_Z 9) /\
  length (avcMSG (self constructed_umlaut)) = 1000%nat.
Proof.
  assert (Hr : reachable params_ok (load_ok stub_idle) constructed_umlaut).
  { eapply (reach_init _ _ "libdiscon.so" name_umlaut (F64.of_Z 10) (F64.of_Z 4)
              (F64.of_Z 0) (F64.of_Z 0) tt).
    vm_compute. reflexivity. }
  split; [exact Hr|].
  destruct (X10_fixed_over_lifetime params_ok (load_ok stub_idle)
              constructed_umlaut Hr)
    as ((lib & params & Hl & _ & Hdis) & Hacc & _ & _ & _ & _ & _ & Hm & _).
  split; [rewrite Hdis; by injection Hl as <-|].
  split; [vm_compute; reflexivity|].
  split; [rewrite Hacc; vm_compute; reflexivity|].
  split; [vm_compute; reflexivity | exact Hm].
Defined.

Lemma X11_witness :
  construct stub_idle = inr (constructed stub_idle) /\
  slot (constructed stub_idle) 26 = Some (F32.of_Z 10).
Proof.
  assert (H : construct stub_idle = inr (constructed stub_idle))
    by (vm_compute; reflexivity).
  split; [exact H|].
  destruct (X11_initial_wind_and_yaw_error params_ok (load_ok stub_idle)
              "libdiscon.so" "DISCON.IN" (F64.of_Z 10) (F64.of_Z 4) (F64.of_Z 0)
              (F64.of_Z 0) tt (constructed stub_idle) H)
    as (w0 & _ & _ & _ & _ & H26 & _).
  apply H26. apply stub_idle_never_stores.
Defined.

